(** * core/execution.go: the call and create dispatcher of webchaind

    A shallow embedding of [Call], [CallCode], [DelegateCall], [StaticCall],
    [Create] and [Transfer].  The account database, the caller reference, the
    execution frame and the interpreter are the collaborators the Go file
    reaches through [vm.Environment]; they are modelled here as a world that is
    threaded through every operation, together with a trace of the effectful
    calls the dispatcher makes on them. *)

From Stdlib Require Import ZArith NArith List Bool Lia.
From Stdlib Require Import Strings.Byte.
From stdpp Require Import base decidable option list gmap.

Local Open Scope Z_scope.

(** ** Data *)

(** [common.Address] (20 bytes) and [common.Hash] (32 bytes) as naturals; the
    zero values [common.Address{}] and [common.Hash{}] are 0. *)
Definition Address := N.
Definition Hash := N.
Definition zeroAddress : Address := 0%N.
Definition zeroHash : Hash := 0%N.

(** A Go [[]byte]: [None] is the nil slice. *)
Definition Bytes := option (list byte).

Definition len (b : Bytes) : Z :=
  match b with
  | None => 0
  | Some l => Z.of_nat (length l)
  end.

Definition bytesOf (b : Bytes) : list byte :=
  match b with
  | None => []
  | Some l => l
  end.

(** Go's [uint64] addition wraps. *)
Definition uint64 (n : N) : N := (n mod 2 ^ 64)%N.

(** [big.Int.BitLen]: the length of the absolute value in bits, 0 for 0. *)
Definition BitLen (x : Z) : Z :=
  if x =? 0 then 0 else Z.log2 (Z.abs x) + 1.

Inductive Error : Type :=
| errCallCreateDepth
| errMaxCodeSizeExceeded
| errContractAddressCollision
| ValueTransferErr (req has : Z)
| ErrRevert
| CodeStoreOutOfGasError
| OtherError (tag : N).

#[global] Instance Error_eq_dec : EqDecision Error.
Proof. solve_decision. Defined.

Definition callCreateDepthMax : Z := 1024.
Definition maxCodeSize : Z := 24576.

Record Account : Type := mkAccount {
  balance : Z;
  nonce : N;
  codeHash : Hash;
  code : list byte
}.

Abbreviation Db := (gmap Address Account).

(** [vm.ContractRef]: the identity of the caller and the value it forwards. *)
Record ContractRef : Type := mkRef {
  refAddress : Address;
  refValue : Z
}.

(** [vm.Contract], the execution frame. *)
Record Contract : Type := mkContract {
  CallerAddress : Address;
  frameCaller : ContractRef;
  frameSelf : Address;
  frameValue : Z;
  Gas : Z;
  Price : Z;
  CodeAddr : option Address;
  CodeHash : Hash;
  Code : list byte;
  delegate : bool
}.

(** What one interpreter run leaves behind: the database, the gas left on
    the frame, the output and the error. *)
Record RunResult : Type := mkRun {
  rDb : Db;
  rGas : Z;
  rRet : Bytes;
  rErr : option Error
}.

(** [vm.RuleSet]. *)
Record Rules : Type := mkRules {
  IsHomestead : Z -> bool;
  IsHardfork2 : Z -> bool
}.

(** [vm.Environment], the part that a dispatcher call only reads. *)
Record Env : Type := mkEnv {
  Depth : Z;
  BlockNumber : Z;
  RuleSet : Rules;
  Vm : Db -> Contract -> Bytes -> bool -> RunResult
}.

(** The effectful calls of a dispatcher call, in the order they are made. *)
Inductive Event : Type :=
| EvReturnGas (gas price : Z)
| EvSnapshotDatabase (s : Db)
| EvRevertToSnapshot (s : Db)
| EvCreateAccount (a : Address)
| EvSetNonce (a : Address) (n : N)
| EvSubBalance (a : Address) (amount : Z)
| EvAddBalance (a : Address) (amount : Z)
| EvSetCode (a : Address) (c : Bytes)
| EvRun (c : Contract) (input : Bytes) (readOnly : bool) (r : RunResult)
| EvUseGas (amount : Z) (ok : bool)
| EvFinalise (c : Contract).

Record World : Type := mkWorld {
  db : Db;
  callerGas : Z;
  trace : list Event
}.

(** The world at the entry of a dispatcher call. *)
Definition enter (d : Db) (g : Z) : World := mkWorld d g [].

(** ** The state monad of the dispatcher *)

Definition M (A : Type) : Type := World -> A * World.

Definition ret {A} (a : A) : M A := fun w => (a, w).

Definition bind {A B} (m : M A) (k : A -> M B) : M B :=
  fun w => let (a, w1) := m w in k a w1.

Notation "'let!' x ':=' m 'in' k" := (bind m (fun x => k))
  (at level 10, x pattern, m at level 100, k at level 200).
Notation "m ';;;' k" := (bind m (fun _ => k))
  (at level 100, k at level 200, right associativity).

Definition emit (e : Event) : M unit :=
  fun w => (tt, mkWorld (db w) (callerGas w) (trace w ++ [e])).

Definition query {A} (f : Db -> A) : M A := fun w => (f (db w), w).

Definition update (f : Db -> Db) : M unit :=
  fun w => (tt, mkWorld (f (db w)) (callerGas w) (trace w)).

(** The externals of other packages the file refers to by name. *)
Class Externals : Type := {
  (** [crypto.CreateAddress] *)
  CreateAddress : Address -> N -> Address;
  (** [crypto.Keccak256Hash] *)
  Keccak256Hash : list byte -> Hash;
  (** [state.StartingNonce] *)
  StartingNonce : N;
  (** [params.CreateDataGas] *)
  CreateDataGas : Z;
  (** [vm.PrecompiledPreAtlantis] and [vm.PrecompiledAtlantis]: the keys
      whose entry is not nil. *)
  PrecompiledPreAtlantis : gset Address;
  PrecompiledAtlantis : gset Address
}.

Section Dispatcher.

Context {ext : Externals}.

Definition emptyCodeHash : Hash := Keccak256Hash [].

(** ** The account database *)

(** Modelled from the spec: the account database behind [env.Db()] is not
    in the file.  Section 3 of the spec gives an account a balance, a nonce
    that starts at the starting value, a code and a code hash with a
    well-known constant for no code; this is the account [CreateAccount]
    makes. *)
Definition newAccount (bal : Z) : Account :=
  mkAccount bal StartingNonce emptyCodeHash [].

(** Modelled from the spec: [Exist], the account is in the database. *)
Definition exist (a : Address) (d : Db) : bool :=
  match d !! a with Some _ => true | None => false end.

(** Modelled from the spec: [GetBalance]; no account, no balance. *)
Definition getBalance (a : Address) (d : Db) : Z :=
  match d !! a with Some x => balance x | None => 0 end.

(** Modelled from the spec: [GetNonce]; an account that is not there has
    the nonce every account starts with. *)
Definition getNonce (a : Address) (d : Db) : N :=
  match d !! a with Some x => nonce x | None => StartingNonce end.

(** Modelled from the spec: [GetCodeHash]; an account that is not there
    reads as the zero hash. *)
Definition getCodeHash (a : Address) (d : Db) : Hash :=
  match d !! a with Some x => codeHash x | None => zeroHash end.

(** Modelled from the spec: [GetCode]. *)
Definition getCode (a : Address) (d : Db) : list byte :=
  match d !! a with Some x => code x | None => [] end.

(** Modelled from the spec: the account a setter works on is the one that
    is there, or a new one. *)
Definition getOrNew (a : Address) (d : Db) : Account :=
  match d !! a with Some x => x | None => newAccount 0 end.

(** Modelled from the spec: [CreateAccount] puts a new account at the
    address; a balance already held there is kept. *)
Definition createAccount (a : Address) (d : Db) : Db :=
  <[a := newAccount (getBalance a d)]> d.

(** Modelled from the spec: [SetNonce]. *)
Definition setNonce (a : Address) (n : N) (d : Db) : Db :=
  let x := getOrNew a d in
  <[a := mkAccount (balance x) n (codeHash x) (code x)]> d.

(** Modelled from the spec: [AddBalance], of the database and of an
    account. *)
Definition addBalance (a : Address) (amount : Z) (d : Db) : Db :=
  let x := getOrNew a d in
  <[a := mkAccount (balance x + amount) (nonce x) (codeHash x) (code x)]> d.

(** Modelled from the spec: [SubBalance] of an account. *)
Definition subBalance (a : Address) (amount : Z) (d : Db) : Db :=
  let x := getOrNew a d in
  <[a := mkAccount (balance x - amount) (nonce x) (codeHash x) (code x)]> d.

(** Modelled from the spec: [SetCode] stores the code and its hash. *)
Definition setCode (a : Address) (c : Bytes) (d : Db) : Db :=
  let x := getOrNew a d in
  <[a := mkAccount (balance x) (nonce x) (Keccak256Hash (bytesOf c))
                   (bytesOf c)]> d.

(** The methods of [env.Db()] as actions; the ones that write are recorded
    in the trace.  A [vm.Account] handle is the address of the account it
    stands for. *)
Definition Exist (a : Address) : M bool := query (exist a).
Definition GetBalance (a : Address) : M Z := query (getBalance a).
Definition GetNonce (a : Address) : M N := query (getNonce a).
Definition GetCodeHash (a : Address) : M Hash := query (getCodeHash a).
Definition GetCode (a : Address) : M (list byte) := query (getCode a).
Definition GetAccount (a : Address) : M Address := ret a.

Definition CreateAccount (a : Address) : M Address :=
  emit (EvCreateAccount a) ;;; update (createAccount a) ;;; ret a.

Definition SetNonce (a : Address) (n : N) : M unit :=
  emit (EvSetNonce a n) ;;; update (setNonce a n).

Definition AddBalance (a : Address) (amount : Z) : M unit :=
  emit (EvAddBalance a amount) ;;; update (addBalance a amount).

Definition SubBalance (a : Address) (amount : Z) : M unit :=
  emit (EvSubBalance a amount) ;;; update (subBalance a amount).

Definition SetCode (a : Address) (c : Bytes) : M unit :=
  emit (EvSetCode a c) ;;; update (setCode a c).

(** Modelled from the spec: [env.CanTransfer] is the funds-sufficiency
    predicate, the caller can cover the value with its current balance. *)
Definition CanTransfer (from : Address) (value : Z) : M bool :=
  query (fun d => value <=? getBalance from d).

(** Modelled from the spec: [env.SnapshotDatabase]; the snapshot handle
    stands for the checkpoint of the database it identifies. *)
Definition SnapshotDatabase : M Db :=
  let! s := query (fun d => d) in
  emit (EvSnapshotDatabase s) ;;; ret s.

(** Modelled from the spec: [env.RevertToSnapshot] undoes every mutation
    of the database since the snapshot was taken. *)
Definition RevertToSnapshot (s : Db) : M unit :=
  emit (EvRevertToSnapshot s) ;;; update (fun _ => s).

(** Modelled from the spec: [caller.ReturnGas] gives gas back to the
    caller. *)
Definition ReturnGas (gas gasPrice : Z) : M unit :=
  fun w => (tt, mkWorld (db w) (callerGas w + gas)
                        (trace w ++ [EvReturnGas gas gasPrice])).

(** ** The execution frame *)

(** Modelled from the spec: [vm.NewContract]; the frame holds the caller,
    the recipient, the value, the gas budget and the gas price. *)
Definition NewContract (caller : ContractRef) (object : Address)
    (value gas price : Z) : Contract :=
  mkContract (refAddress caller) caller object value gas price
             None zeroHash [] false.

(** Modelled from the spec: [SetCallCode] sets the code to run and records
    its hash. *)
Definition SetCallCode (c : Contract) (addr : option Address) (hash : Hash)
    (cd : list byte) : Contract :=
  mkContract (CallerAddress c) (frameCaller c) (frameSelf c) (frameValue c)
             (Gas c) (Price c) addr hash cd (delegate c).

(** Modelled from the spec: [AsDelegate] marks the frame as a delegate. *)
Definition AsDelegate (c : Contract) : Contract :=
  mkContract (CallerAddress c) (frameCaller c) (frameSelf c) (frameValue c)
             (Gas c) (Price c) (CodeAddr c) (CodeHash c) (Code c) true.

Definition withGas (c : Contract) (g : Z) : Contract :=
  mkContract (CallerAddress c) (frameCaller c) (frameSelf c) (frameValue c)
             g (Price c) (CodeAddr c) (CodeHash c) (Code c) (delegate c).

(** Modelled from the spec: [UseGas]; gas consumption is checked, the gas
    of a frame is taken only when there is enough of it. *)
Definition UseGas (c : Contract) (amount : Z) : M (bool * Contract) :=
  if Gas c <? amount
  then emit (EvUseGas amount false) ;;; ret (false, c)
  else emit (EvUseGas amount true) ;;; ret (true, withGas c (Gas c - amount)).

(** Modelled from the spec: the deferred [contract.Finalise()], run on the
    frame when the dispatcher returns; what it does with the frame is not
    in the file. *)
Definition Finalise (c : Contract) : M unit := emit (EvFinalise c).

(** [env.Vm().Run(contract, input, readOnly)]: the interpreter of the
    environment works on the database and on the gas of the frame. *)
Definition Run (env : Env) (c : Contract) (input : Bytes) (readOnly : bool)
    : M (Bytes * option Error * Contract) :=
  fun w =>
    let r := Vm env (db w) c input readOnly in
    ((rRet r, rErr r, withGas c (rGas r)),
     mkWorld (rDb r) (callerGas w) (trace w ++ [EvRun c input readOnly r])).

(** ** core/execution.go *)

(** [Transfer], lines 309-313; [env.Transfer] is this function. *)
Definition Transfer (from to : Address) (amount : Z) : M unit :=
  SubBalance from amount ;;;
  AddBalance to amount.

(** Lines 88-99, and the same text at 128-136, 165-176 and 210-221: run the
    interpreter, revert on an error, and use up the gas unless the error is
    [vm.ErrRevert]. *)
Definition runAndRevert (env : Env) (contract : Contract) (input : Bytes)
    (readOnly : bool) (snapshot : Db) : M (Bytes * option Error) :=
  let! (out, err, contract) := Run env contract input readOnly in
  let! contract :=
    match err with
    | Some e =>
        RevertToSnapshot snapshot ;;;
        if bool_decide (e <> ErrRevert)
        then let! (_, c) := UseGas contract (Gas contract) in ret c
        else ret contract
    | None => ret contract
    end in
  Finalise contract ;;;
  ret (out, err).

(** [Call], lines 47-100.  The two branches of lines 67-79 meet again at
    line 80, here [rest]. *)
Definition Call (env : Env) (caller : ContractRef) (addr : Address)
    (input : Bytes) (gas gasPrice value : Z) : M (Bytes * option Error) :=
  if Depth env >? callCreateDepthMax then
    ReturnGas gas gasPrice ;;;
    ret (None, Some errCallCreateDepth)
  else
  let! can := CanTransfer (refAddress caller) value in
  if negb can then
    ReturnGas gas gasPrice ;;;
    let! has := GetBalance (refAddress caller) in
    ret (None, Some (ValueTransferErr value has))
  else
  let! from := GetAccount (refAddress caller) in
  let! snapshot := SnapshotDatabase in
  let isHardfork2 := IsHardfork2 (RuleSet env) (BlockNumber env) in
  let rest (to : Address) : M (Bytes * option Error) :=
    Transfer from to value ;;;
    let contract := NewContract caller to value gas gasPrice in
    let! hash := GetCodeHash addr in
    let! cd := GetCode addr in
    let contract := SetCallCode contract (Some addr) hash cd in
    runAndRevert env contract input false snapshot in
  let! there := Exist addr in
  if negb there then
    let precompiles :=
      if isHardfork2 then PrecompiledAtlantis else PrecompiledPreAtlantis in
    if bool_decide (addr ∉ precompiles) && isHardfork2 && (BitLen value =? 0)
    then
      ReturnGas gas gasPrice ;;;
      ret (None, None)
    else
      let! to := CreateAccount addr in
      rest to
  else
    let! to := GetAccount addr in
    rest to.

(** [CallCode], lines 103-137. *)
Definition CallCode (env : Env) (caller : ContractRef) (addr : Address)
    (input : Bytes) (gas gasPrice value : Z) : M (Bytes * option Error) :=
  if Depth env >? callCreateDepthMax then
    ReturnGas gas gasPrice ;;;
    ret (None, Some errCallCreateDepth)
  else
  let! can := CanTransfer (refAddress caller) value in
  if negb can then
    ReturnGas gas gasPrice ;;;
    let! has := GetBalance (refAddress caller) in
    ret (None, Some (ValueTransferErr value has))
  else
  let! to := GetAccount (refAddress caller) in
  let! snapshot := SnapshotDatabase in
  let contract := NewContract caller to value gas gasPrice in
  let! hash := GetCodeHash addr in
  let! cd := GetCode addr in
  let contract := SetCallCode contract (Some addr) hash cd in
  runAndRevert env contract input false snapshot.

(** [DelegateCall], lines 140-177. *)
Definition DelegateCall (env : Env) (caller : ContractRef) (addr : Address)
    (input : Bytes) (gas gasPrice : Z) : M (Bytes * option Error) :=
  if Depth env >? callCreateDepthMax then
    ReturnGas gas gasPrice ;;;
    ret (None, Some errCallCreateDepth)
  else
  let! snapshot := SnapshotDatabase in
  let! there := Exist (refAddress caller) in
  let! to :=
    if negb there then CreateAccount (refAddress caller)
    else GetAccount (refAddress caller) in
  let contract :=
    AsDelegate (NewContract caller to (refValue caller) gas gasPrice) in
  let! hash := GetCodeHash addr in
  let! cd := GetCode addr in
  let contract := SetCallCode contract (Some addr) hash cd in
  runAndRevert env contract input false snapshot.

(** [StaticCall], lines 180-222. *)
Definition StaticCall (env : Env) (caller : ContractRef) (addr : Address)
    (input : Bytes) (gas gasPrice : Z) : M (Bytes * option Error) :=
  if Depth env >? callCreateDepthMax then
    ReturnGas gas gasPrice ;;;
    ret (None, Some errCallCreateDepth)
  else
  let! snapshot := SnapshotDatabase in
  let! there := Exist addr in
  let! to :=
    if negb there then CreateAccount addr else GetAccount addr in
  let contract := NewContract caller to 0 gas gasPrice in
  let! hash := GetCodeHash addr in
  let! cd := GetCode addr in
  let contract := SetCallCode contract (Some addr) hash cd in
  AddBalance addr 0 ;;;
  runAndRevert env contract input true snapshot.

(** [Create], lines 271-306: what follows the interpreter run. *)
Definition createFinish (env : Env) (address : Address) (snapshot : Db)
    (out : Bytes) (err : option Error) (contract : Contract)
    : M (Bytes * Address * option Error) :=
  let maxCodeSizeExceeded :=
    (len out >? maxCodeSize) && IsHardfork2 (RuleSet env) (BlockNumber env) in
  let! (err, contract) :=
    if bool_decide (err = None) && negb maxCodeSizeExceeded then
      let dataGas := len out * CreateDataGas in
      let! (ok, contract) := UseGas contract dataGas in
      if ok
      then SetCode address out ;;; ret (err, contract)
      else ret (Some CodeStoreOutOfGasError, contract)
    else ret (err, contract) in
  let! contract :=
    if maxCodeSizeExceeded
       || (bool_decide (err <> None)
           && (IsHomestead (RuleSet env) (BlockNumber env)
               || bool_decide (err <> Some CodeStoreOutOfGasError)))
    then
      RevertToSnapshot snapshot ;;;
      if bool_decide (err <> Some ErrRevert)
      then let! (_, c) := UseGas contract (Gas contract) in ret c
      else ret contract
    else ret contract in
  let err :=
    if maxCodeSizeExceeded && bool_decide (err = None)
    then Some errMaxCodeSizeExceeded else err in
  Finalise contract ;;;
  if bool_decide (err <> None) && bool_decide (err <> Some ErrRevert)
  then ret (None, address, err)
  else ret (out, address, err).

(** [Create], lines 225-269, then [createFinish]. *)
Definition Create (env : Env) (caller : ContractRef) (cd : list byte)
    (gas gasPrice value : Z) : M (Bytes * Address * option Error) :=
  if Depth env >? callCreateDepthMax then
    ReturnGas gas gasPrice ;;;
    ret (None, zeroAddress, Some errCallCreateDepth)
  else
  let! can := CanTransfer (refAddress caller) value in
  if negb can then
    ReturnGas gas gasPrice ;;;
    let! has := GetBalance (refAddress caller) in
    ret (None, zeroAddress, Some (ValueTransferErr value has))
  else
  let! nonce := GetNonce (refAddress caller) in
  SetNonce (refAddress caller) (uint64 (nonce + 1)) ;;;
  let address := CreateAddress (refAddress caller) nonce in
  let! contractHash := GetCodeHash address in
  let! n := GetNonce address in
  if bool_decide (n <> StartingNonce)
     || (bool_decide (contractHash <> zeroHash)
         && bool_decide (contractHash <> emptyCodeHash))
  then ret (None, zeroAddress, Some errContractAddressCollision)
  else
  let! snapshot := SnapshotDatabase in
  let! from := GetAccount (refAddress caller) in
  let! to := CreateAccount address in
  (if IsHardfork2 (RuleSet env) (BlockNumber env)
   then SetNonce address (uint64 (StartingNonce + 1))
   else ret tt) ;;;
  Transfer from to value ;;;
  let contract := NewContract caller to value gas gasPrice in
  let contract := SetCallCode contract None (Keccak256Hash cd) cd in
  let! (out, err, contract) := Run env contract None false in
  createFinish env address snapshot out err contract.

End Dispatcher.

(** ** Reading a trace *)

Definition isReturnGas (e : Event) : bool :=
  match e with EvReturnGas _ _ => true | _ => false end.

Definition isSnapshot (e : Event) : bool :=
  match e with EvSnapshotDatabase _ => true | _ => false end.

Definition isRevert (e : Event) : bool :=
  match e with EvRevertToSnapshot _ => true | _ => false end.

Definition isCreateAccount (e : Event) : bool :=
  match e with EvCreateAccount _ => true | _ => false end.

Definition isAddBalance (e : Event) : bool :=
  match e with EvAddBalance _ _ => true | _ => false end.

Definition isSubBalance (e : Event) : bool :=
  match e with EvSubBalance _ _ => true | _ => false end.

Definition isSetCode (e : Event) : bool :=
  match e with EvSetCode _ _ => true | _ => false end.

Definition isRun (e : Event) : bool :=
  match e with EvRun _ _ _ _ => true | _ => false end.

Definition isUseGas (e : Event) : bool :=
  match e with EvUseGas _ _ => true | _ => false end.

(** The calls on accounts that precede the interpreter run. *)
Definition isAccountCall (e : Event) : bool :=
  match e with
  | EvCreateAccount _ | EvSetNonce _ _ | EvSubBalance _ _ | EvAddBalance _ _ =>
      true
  | _ => false
  end.

(** The frame the deferred [Finalise] saw: the last event of a call that
    built a frame. *)
Definition finalFrame (t : list Event) : option Contract :=
  match last t with
  | Some (EvFinalise c) => Some c
  | _ => None
  end.

(** The world a rejected call leaves: the database as it was, the gas
    given back, and [ReturnGas] the only call made. *)
Definition rejectedWorld (d : Db) (g gas gasPrice : Z) : World :=
  mkWorld d (g + gas) [EvReturnGas gas gasPrice].

(** ** Concrete collaborators, for running the dispatcher *)

Module Demo.

Definition demoExt : Externals := {|
  CreateAddress := fun a n => (a * 1000 + n + 1)%N;
  Keccak256Hash := fun l => (N.of_nat (length l) + 77)%N;
  StartingNonce := 0%N;
  CreateDataGas := 200;
  PrecompiledPreAtlantis := {[ 1%N; 2%N; 3%N; 4%N ]};
  PrecompiledAtlantis := {[ 1%N; 2%N; 3%N; 4%N; 5%N; 6%N; 7%N; 8%N ]}
|}.

(** Account 100 holds 50 and has sent 7 transactions. *)
Definition demoDb : Db := <[ 100%N := mkAccount 50 7%N 77%N [] ]> ∅.

Definition alice : ContractRef := mkRef 100%N 0.

(** An interpreter that spends 10 gas and returns two bytes. *)
Definition okVm : Db -> Contract -> Bytes -> bool -> RunResult :=
  fun d c _ _ => mkRun d (Gas c - 10) (Some [x01; x02]) None.

(** An interpreter that fails with the given error after writing to the
    balance of account 100. *)
Definition failVm (e : Error) : Db -> Contract -> Bytes -> bool -> RunResult :=
  fun d c _ _ =>
    mkRun (<[ 100%N := mkAccount 1 9%N 77%N [] ]> d) (Gas c - 10)
          (Some [x03]) (Some e).

(** An interpreter whose code calls back into account 100, which creates
    again: the nonce of account 100 goes up once more. *)
Definition reentrantVm : Db -> Contract -> Bytes -> bool -> RunResult :=
  fun d c _ _ =>
    mkRun (<[ 100%N := mkAccount 45 9%N 77%N [] ]> d) (Gas c - 10)
          (Some [x01; x02]) None.

Definition frontier : Rules := mkRules (fun _ => false) (fun _ => false).
Definition homestead : Rules := mkRules (fun _ => true) (fun _ => false).
Definition hardfork2 : Rules := mkRules (fun _ => true) (fun _ => true).

(** Block 10 at depth 0 under the homestead rules, and under the rules of
    the later hard fork at depth 0 and at depth 1025. *)
Definition envOk : Env := mkEnv 0 10 homestead okVm.
Definition envFork : Env := mkEnv 0 10 hardfork2 okVm.
Definition envDeep : Env := mkEnv 1025 10 hardfork2 okVm.
Definition envFail (e : Error) : Env := mkEnv 0 10 homestead (failVm e).
Definition envReentrant : Env := mkEnv 0 10 homestead reentrantVm.

(** The address account 100 derives from its nonce 7, and a database in
    which an account that has sent 3 transactions sits there. *)
Definition taken : Address := 100008%N.
Definition takenDb : Db := <[ taken := mkAccount 0 3%N 77%N [] ]> demoDb.

End Demo.

(** ** The frames the call variants hand to the interpreter *)

Inductive Variant : Type := VCall | VCallCode | VDelegateCall | VStaticCall.

Section Frames.

Context {ext : Externals}.

(** The four call variants behind one signature; [DelegateCall] and
    [StaticCall] take no value. *)
Definition callVariant (v : Variant) (env : Env) (caller : ContractRef)
    (addr : Address) (input : Bytes) (gas gasPrice value : Z)
    : M (Bytes * option Error) :=
  match v with
  | VCall => Call env caller addr input gas gasPrice value
  | VCallCode => CallCode env caller addr input gas gasPrice value
  | VDelegateCall => DelegateCall env caller addr input gas gasPrice
  | VStaticCall => StaticCall env caller addr input gas gasPrice
  end.

(** The precompiled contracts [Call] consults, lines 68-71. *)
Definition activePrecompiles (env : Env) : gset Address :=
  if IsHardfork2 (RuleSet env) (BlockNumber env)
  then PrecompiledAtlantis else PrecompiledPreAtlantis.

(** A frame bound to the code of [addr] as the database holds it. *)
Definition frameOn (c : Contract) (addr : Address) (d : Db) : Contract :=
  SetCallCode c (Some addr) (getCodeHash addr d) (getCode addr d).

(** The database after an account was resolved or created. *)
Definition resolved (a : Address) (d : Db) : Db :=
  if exist a d then d else createAccount a d.

Definition resolving (a : Address) (d : Db) : list Event :=
  if exist a d then [] else [EvCreateAccount a].

Definition transferred (from to : Address) (value : Z) (d : Db) : Db :=
  addBalance to value (subBalance from value d).

(** The database [Create] runs the interpreter on, lines 253-260. *)
Definition createDb (env : Env) (from address : Address) (value : Z)
    (d : Db) : Db :=
  transferred from address value
    (if IsHardfork2 (RuleSet env) (BlockNumber env)
     then setNonce address (uint64 (StartingNonce + 1))
            (createAccount address d)
     else createAccount address d).

(** The calls [Create] makes between the snapshot and the interpreter. *)
Definition creating (env : Env) (from address : Address) (value : Z)
    : list Event :=
  EvCreateAccount address
  :: (if IsHardfork2 (RuleSet env) (BlockNumber env)
      then [EvSetNonce address (uint64 (StartingNonce + 1))] else [])
  ++ [EvSubBalance from value; EvAddBalance address value].

(** The error [Create] holds at the revert decision of line 290: the one
    of the interpreter, or the one of the code storage of lines 276-285. *)
Definition errorAtDecision (env : Env) (r : RunResult) : option Error :=
  match rErr r with
  | Some e => Some e
  | None =>
      if (len (rRet r) >? maxCodeSize)
         && IsHardfork2 (RuleSet env) (BlockNumber env)
      then None
      else if rGas r <? len (rRet r) * CreateDataGas
           then Some CodeStoreOutOfGasError else None
  end.

(** *** The decisions of [Create] after the interpreter run *)

Section Decisions.

Variables (env : Env) (r : RunResult).

(** Line 271. *)
Definition sizeExceeded : bool :=
  (len (rRet r) >? maxCodeSize)
  && IsHardfork2 (RuleSet env) (BlockNumber env).

(** Lines 276-281: the frame is charged for the code. *)
Definition storeAttempted : bool :=
  bool_decide (rErr r = None) && negb sizeExceeded.

(** Lines 280-281: the frame paid and the code is stored. *)
Definition codeStored : bool :=
  storeAttempted && (len (rRet r) * CreateDataGas <=? rGas r).

(** Line 290. *)
Definition revertDecided : bool :=
  sizeExceeded
  || (bool_decide (errorAtDecision env r <> None)
      && (IsHomestead (RuleSet env) (BlockNumber env)
          || bool_decide
               (errorAtDecision env r <> Some CodeStoreOutOfGasError))).

(** Lines 298-300. *)
Definition errorReturned : option Error :=
  if sizeExceeded && bool_decide (errorAtDecision env r = None)
  then Some errMaxCodeSizeExceeded else errorAtDecision env r.

(** Lines 303-306. *)
Definition outputReturned : Bytes :=
  if bool_decide (errorReturned <> None)
     && bool_decide (errorReturned <> Some ErrRevert)
  then None else rRet r.

(** The gas of the frame after the charge for the code. *)
Definition gasAfterStore : Z :=
  if codeStored then rGas r - len (rRet r) * CreateDataGas else rGas r.

(** Lines 292-294: the gas left on the frame is used up. *)
Definition gasBurnt : bool :=
  revertDecided && bool_decide (errorAtDecision env r <> Some ErrRevert).

(** The calls [createFinish] makes. *)
Definition finishing (address : Address) (s : Db) (c : Contract)
    : list Event :=
  (if storeAttempted
   then [EvUseGas (len (rRet r) * CreateDataGas) codeStored] else [])
  ++ (if codeStored then [EvSetCode address (rRet r)] else [])
  ++ (if revertDecided then [EvRevertToSnapshot s] else [])
  ++ (if gasBurnt then [EvUseGas gasAfterStore true] else [])
  ++ [EvFinalise (withGas c (if gasBurnt then 0 else gasAfterStore))].

(** The database [createFinish] leaves, given the one of the interpreter. *)
Definition finished (address : Address) (s : Db) : Db :=
  if revertDecided then s
  else if codeStored then setCode address (rRet r) (rDb r) else rDb r.

End Decisions.

(** *** The four ways through [Create] *)

Section Paths.

Variables (env : Env) (caller : ContractRef) (cd : list byte).
Variables (gas gasPrice value : Z) (d : Db) (g : Z).

(** The derived address, the database after the nonce increment, and the
    frame of the new contract. *)
Definition derived : Address :=
  CreateAddress (refAddress caller) (getNonce (refAddress caller) d).

Definition incremented : Db :=
  setNonce (refAddress caller)
           (uint64 (getNonce (refAddress caller) d + 1)) d.

Definition createFrame : Contract :=
  SetCallCode (NewContract caller derived value gas gasPrice) None
              (Keccak256Hash cd) cd.

(** The test of line 246, on the database after the nonce increment. *)
Definition collides : bool :=
  bool_decide (getNonce derived incremented <> StartingNonce)
  || (bool_decide (getCodeHash derived incremented <> zeroHash)
      && bool_decide (getCodeHash derived incremented <> emptyCodeHash)).

(** The run of the interpreter in [Create], line 269. *)
Definition createRun : RunResult :=
  Vm env (createDb env (refAddress caller) derived value incremented)
     createFrame None false.

Inductive CreatePath
    : Bytes * Address * option Error * World -> Prop :=
| PathDepth :
    Depth env > callCreateDepthMax ->
    CreatePath ((None, zeroAddress, Some errCallCreateDepth),
                rejectedWorld d g gas gasPrice)
| PathFunds :
    Depth env <= callCreateDepthMax ->
    getBalance (refAddress caller) d < value ->
    CreatePath ((None, zeroAddress,
                 Some (ValueTransferErr value
                         (getBalance (refAddress caller) d))),
                rejectedWorld d g gas gasPrice)
| PathCollision :
    Depth env <= callCreateDepthMax ->
    value <= getBalance (refAddress caller) d ->
    collides = true ->
    CreatePath ((None, zeroAddress, Some errContractAddressCollision),
                mkWorld incremented g
                  [EvSetNonce (refAddress caller)
                     (uint64 (getNonce (refAddress caller) d + 1))])
| PathRun :
    Depth env <= callCreateDepthMax ->
    value <= getBalance (refAddress caller) d ->
    collides = false ->
    CreatePath
      ((outputReturned env createRun, derived, errorReturned env createRun),
       mkWorld (finished env createRun derived incremented) g
         (EvSetNonce (refAddress caller)
            (uint64 (getNonce (refAddress caller) d + 1))
          :: EvSnapshotDatabase incremented
          :: creating env (refAddress caller) derived value
          ++ EvRun createFrame None false createRun
          :: finishing env createRun derived incremented createFrame)).

End Paths.

End Frames.

(** ** Concrete calls *)

Module Scenario.

Import Demo.

(** A creation with too little gas to pay for the two bytes of code. *)
Definition shortCreate :=
  Create (ext := demoExt) envOk alice [x00] 100 1 5 (enter demoDb 0).
Definition shortFrame := createFrame (ext := demoExt) alice [x00] 100 1 5 demoDb.
Definition shortRun := createRun (ext := demoExt) envOk alice [x00] 100 1 5 demoDb.

(** A creation that pays for its code. *)
Definition paidCreate :=
  Create (ext := demoExt) envOk alice [x00] 1000 1 5 (enter demoDb 0).
Definition paidFrame := createFrame (ext := demoExt) alice [x00] 1000 1 5 demoDb.
Definition paidRun := createRun (ext := demoExt) envOk alice [x00] 1000 1 5 demoDb.

(** A creation whose interpreter run fails. *)
Definition failedCreate :=
  Create (ext := demoExt) (envFail (OtherError 1)) alice [x00] 1000 1 5
    (enter demoDb 0).

(** A creation whose interpreter run creates again from account 100. *)
Definition reentrantCreate :=
  Create (ext := demoExt) envReentrant alice [x00] 1000 1 5 (enter demoDb 0).

(** Creations onto a taken address, at depth 0 and at depth 1025. *)
Definition collidingCreate :=
  Create (ext := demoExt) envOk alice [x00] 1000 1 5 (enter takenDb 0).
Definition deepCollidingCreate :=
  Create (ext := demoExt) envDeep alice [x00] 1000 1 5 (enter takenDb 0).

(** Calls of account 200, which is not in the database: without value at
    depth 0 and at depth 1025, and with more value than account 100 has. *)
Definition skippedCall :=
  Call (ext := demoExt) envFork alice 200%N None 100 1 0 (enter demoDb 0).
Definition deepCall :=
  Call (ext := demoExt) envDeep alice 200%N None 100 1 0 (enter demoDb 0).
Definition brokeCall :=
  Call (ext := demoExt) envOk alice 200%N None 100 1 60 (enter demoDb 0).

(** A static call of account 200 whose interpreter run fails. *)
Definition failedStatic :=
  callVariant (ext := demoExt) VStaticCall (envFail (OtherError 1)) alice
    200%N None 100 1 0 (enter demoDb 0).
Definition staticFrame :=
  frameOn (NewContract alice 200%N 0 100 1) 200%N
    (resolved (ext := demoExt) 200%N demoDb).
Definition staticRun :=
  Vm (envFail (OtherError 1))
     (addBalance (ext := demoExt) 200%N 0 (resolved (ext := demoExt) 200%N demoDb))
     staticFrame None true.

End Scenario.

(** ** The ways through the four call variants *)

Definition isFinalise (e : Event) : bool :=
  match e with EvFinalise _ => true | _ => false end.

(** The calls that follow the interpreter run in the four call variants,
    lines 93-99 and the deferred [Finalise]. *)
Definition tailCalls (c : Contract) (s : Db) (r : RunResult) : list Event :=
  match rErr r with
  | None => [EvFinalise (withGas c (rGas r))]
  | Some e =>
      EvRevertToSnapshot s
      :: (if bool_decide (e <> ErrRevert)
          then [EvUseGas (rGas r) true; EvFinalise (withGas c 0)]
          else [EvFinalise (withGas c (rGas r))])
  end.

Section Reach.

Context {ext : Externals}.

Variables (env : Env) (caller : ContractRef) (addr : Address).
Variables (gas gasPrice value : Z) (d : Db).

(** Lines 67 and 72 of [Call]: the target is not there and the call is
    dropped. *)
Definition skips : bool :=
  negb (exist addr d)
  && (bool_decide (addr ∉ activePrecompiles env)
      && IsHardfork2 (RuleSet env) (BlockNumber env) && (BitLen value =? 0)).

(** The exits of a call variant before a frame is built: what is returned
    and the calls made. *)
Definition earlyExit (v : Variant)
    : option (Bytes * option Error * list Event) :=
  let broke :=
    Some (None,
          Some (ValueTransferErr value (getBalance (refAddress caller) d)),
          [EvReturnGas gas gasPrice]) in
  if Depth env >? callCreateDepthMax
  then Some (None, Some errCallCreateDepth, [EvReturnGas gas gasPrice])
  else
    match v with
    | VCall =>
        if value <=? getBalance (refAddress caller) d
        then if skips
             then Some (None, None,
                        [EvSnapshotDatabase d; EvReturnGas gas gasPrice])
             else None
        else broke
    | VCallCode =>
        if value <=? getBalance (refAddress caller) d then None else broke
    | VDelegateCall | VStaticCall => None
    end.

(** The calls a variant makes between its snapshot and the interpreter. *)
Definition variantCalls (v : Variant) : list Event :=
  match v with
  | VCall =>
      resolving addr d
      ++ [EvSubBalance (refAddress caller) value; EvAddBalance addr value]
  | VCallCode => []
  | VDelegateCall => resolving (refAddress caller) d
  | VStaticCall => resolving addr d ++ [EvAddBalance addr 0]
  end.

(** The database a variant runs the interpreter on. *)
Definition variantDb (v : Variant) : Db :=
  match v with
  | VCall => transferred (refAddress caller) addr value (resolved addr d)
  | VCallCode => d
  | VDelegateCall => resolved (refAddress caller) d
  | VStaticCall => addBalance addr 0 (resolved addr d)
  end.

(** The frame a variant builds, lines 83-84, 123-124, 160-161, 200-201. *)
Definition variantFrame (v : Variant) : Contract :=
  match v with
  | VCall =>
      frameOn (NewContract caller addr value gas gasPrice) addr
              (variantDb VCall)
  | VCallCode =>
      frameOn (NewContract caller (refAddress caller) value gas gasPrice)
              addr d
  | VDelegateCall =>
      frameOn (AsDelegate (NewContract caller (refAddress caller)
                             (refValue caller) gas gasPrice))
              addr (variantDb VDelegateCall)
  | VStaticCall =>
      frameOn (NewContract caller addr 0 gas gasPrice) addr (resolved addr d)
  end.

Definition variantReadOnly (v : Variant) : bool :=
  match v with VStaticCall => true | _ => false end.

End Reach.

(** ** More concrete calls *)

Module Cases.

Import Demo.

(** Block 10 at depth 1024, the deepest a call may be. *)
Definition envEdge : Env := mkEnv 1024 10 hardfork2 okVm.

(** An interpreter that returns a code one byte longer than the maximum
    code size. *)
Definition longVm : Db -> Contract -> Bytes -> bool -> RunResult :=
  fun d c _ _ => mkRun d (Gas c - 10) (Some (repeat x00 (Z.to_nat (maxCodeSize + 1)))) None.

Definition envLong : Env := mkEnv 0 10 hardfork2 longVm.

(** A call of account 200 with a value of 5, as [Call], [CallCode] and
    [DelegateCall]. *)
Definition paidCall :=
  Call (ext := demoExt) envOk alice 200%N None 100 1 5 (enter demoDb 0).
Definition callFrame :=
  variantFrame (ext := demoExt) alice 200%N 100 1 5 demoDb VCall.
Definition callRun :=
  Vm envOk (variantDb (ext := demoExt) alice 200%N 5 demoDb VCall)
     callFrame None false.

Definition codeCall :=
  CallCode envOk alice 200%N None 100 1 5 (enter demoDb 0).
Definition codeFrame :=
  variantFrame (ext := demoExt) alice 200%N 100 1 5 demoDb VCallCode.
Definition codeRun := Vm envOk demoDb codeFrame None false.

Definition delegateCall :=
  DelegateCall (ext := demoExt) envOk alice 200%N None 100 1 (enter demoDb 0).
Definition delegateFrame :=
  variantFrame (ext := demoExt) alice 200%N 100 1 0 demoDb VDelegateCall.
Definition delegateRun := Vm envOk demoDb delegateFrame None false.

(** A creation whose interpreter run fails, and one whose code is too
    long. *)
Definition failedRun :=
  createRun (ext := demoExt) (envFail (OtherError 1)) alice [x00] 1000 1 5
    demoDb.

Definition longCreate :=
  Create (ext := demoExt) envLong alice [x00] 1000 1 5 (enter demoDb 0).
Definition longRun :=
  createRun (ext := demoExt) envLong alice [x00] 1000 1 5 demoDb.

End Cases.

Ltac mred :=
  unfold Transfer, CreateAccount, SetNonce, AddBalance, SubBalance, SetCode,
    SnapshotDatabase, RevertToSnapshot, ReturnGas, Finalise, Run,
    Exist, GetBalance, GetNonce, GetCodeHash, GetCode, GetAccount, CanTransfer,
    bind, ret, emit, query, update, enter;
  cbn [db callerGas trace fst snd app negb].

(** ** The account database: reads after writes *)

Section Database.

Context {ext : Externals}.

Lemma getNonce_setNonce_eq a n (d : Db) : getNonce a (setNonce a n d) = n.
Proof. unfold getNonce, setNonce. by rewrite lookup_insert_eq. Qed.

Lemma getBalance_setNonce a b n (d : Db) :
  getBalance b (setNonce a n d) = getBalance b d.
Proof.
  unfold getBalance, setNonce, getOrNew.
  destruct (decide (a = b)) as [->|Hne].
  - rewrite lookup_insert_eq. by destruct (d !! b).
  - by rewrite lookup_insert_ne.
Qed.

Lemma getNonce_setCode a b c (d : Db) :
  getNonce b (setCode a c d) = getNonce b d.
Proof.
  unfold getNonce, setCode, getOrNew.
  destruct (decide (a = b)) as [->|Hne].
  - rewrite lookup_insert_eq. by destruct (d !! b).
  - by rewrite lookup_insert_ne.
Qed.

Lemma getCode_setCode a c (d : Db) : getCode a (setCode a c d) = bytesOf c.
Proof. unfold getCode, setCode. by rewrite lookup_insert_eq. Qed.

Lemma exist_createAccount a (d : Db) : exist a (createAccount a d) = true.
Proof. unfold exist, createAccount. by rewrite lookup_insert_eq. Qed.

Lemma uint64_small (n : N) : (n < 2 ^ 64)%N -> uint64 n = n.
Proof. intros H. unfold uint64. by apply N.mod_small. Qed.

Lemma BitLen_zero x : BitLen x = 0 <-> x = 0.
Proof.
  unfold BitLen. destruct (Z.eqb_spec x 0) as [->|Hne]; [done|].
  split; [|done]. pose proof (Z.log2_nonneg (Z.abs x)). lia.
Qed.

End Database.

(** ** The guards *)

Section Guards.

Context {ext : Externals}.

Variables (env : Env) (caller : ContractRef) (gas gasPrice : Z).
Variables (d : Db) (g : Z).

Local Abbreviation rejected := (rejectedWorld d g gas gasPrice).

Lemma depth_gtb : Depth env > callCreateDepthMax ->
  (Depth env >? callCreateDepthMax) = true.
Proof. intros H. apply Z.gtb_lt. lia. Qed.

Lemma depth_leb : Depth env <= callCreateDepthMax ->
  (Depth env >? callCreateDepthMax) = false.
Proof. intros H. rewrite Z.gtb_ltb. apply Z.ltb_ge. lia. Qed.

Lemma Call_depth addr input value :
  Depth env > callCreateDepthMax ->
  Call env caller addr input gas gasPrice value (enter d g)
  = ((None, Some errCallCreateDepth), rejected).
Proof. intros H. unfold Call. by rewrite (depth_gtb H). Qed.

Lemma CallCode_depth addr input value :
  Depth env > callCreateDepthMax ->
  CallCode env caller addr input gas gasPrice value (enter d g)
  = ((None, Some errCallCreateDepth), rejected).
Proof. intros H. unfold CallCode. by rewrite (depth_gtb H). Qed.

Lemma DelegateCall_depth addr input :
  Depth env > callCreateDepthMax ->
  DelegateCall env caller addr input gas gasPrice (enter d g)
  = ((None, Some errCallCreateDepth), rejected).
Proof. intros H. unfold DelegateCall. by rewrite (depth_gtb H). Qed.

Lemma StaticCall_depth addr input :
  Depth env > callCreateDepthMax ->
  StaticCall env caller addr input gas gasPrice (enter d g)
  = ((None, Some errCallCreateDepth), rejected).
Proof. intros H. unfold StaticCall. by rewrite (depth_gtb H). Qed.

Lemma Create_depth cd value :
  Depth env > callCreateDepthMax ->
  Create env caller cd gas gasPrice value (enter d g)
  = ((None, zeroAddress, Some errCallCreateDepth), rejected).
Proof. intros H. unfold Create. by rewrite (depth_gtb H). Qed.

Lemma funds_short value :
  getBalance (refAddress caller) d < value ->
  CanTransfer (refAddress caller) value (enter d g) = (false, enter d g).
Proof.
  intros H. unfold CanTransfer, query. cbn [db enter].
  by rewrite (proj2 (Z.leb_gt _ _) H).
Qed.

Lemma funds_enough value :
  value <= getBalance (refAddress caller) d ->
  CanTransfer (refAddress caller) value (enter d g) = (true, enter d g).
Proof.
  intros H. unfold CanTransfer, query. cbn [db enter].
  by rewrite (proj2 (Z.leb_le _ _) H).
Qed.

Lemma Call_funds addr input value :
  Depth env <= callCreateDepthMax ->
  getBalance (refAddress caller) d < value ->
  Call env caller addr input gas gasPrice value (enter d g)
  = ((None, Some (ValueTransferErr value (getBalance (refAddress caller) d))),
     rejected).
Proof.
  intros Hd Hf. unfold Call. rewrite (depth_leb Hd).
  unfold bind at 1. by rewrite (funds_short _ Hf).
Qed.

Lemma Create_funds cd value :
  Depth env <= callCreateDepthMax ->
  getBalance (refAddress caller) d < value ->
  Create env caller cd gas gasPrice value (enter d g)
  = ((None, zeroAddress,
      Some (ValueTransferErr value (getBalance (refAddress caller) d))),
     rejected).
Proof.
  intros Hd Hf. unfold Create. rewrite (depth_leb Hd).
  unfold bind at 1. by rewrite (funds_short _ Hf).
Qed.

End Guards.

(** ** The frame: gas and the shared tail of the four call variants *)

Section Frame.

Context {ext : Externals}.

Lemma withGas_withGas c a b : withGas (withGas c a) b = withGas c b.
Proof. reflexivity. Qed.

Lemma Gas_withGas c a : Gas (withGas c a) = a.
Proof. reflexivity. Qed.

(** Using up all the gas of a frame always succeeds and leaves none. *)
Lemma UseGas_all c d g t :
  UseGas c (Gas c) (mkWorld d g t)
  = ((true, withGas c 0), mkWorld d g (t ++ [EvUseGas (Gas c) true])).
Proof.
  unfold UseGas. rewrite Z.ltb_irrefl, Z.sub_diag. reflexivity.
Qed.

Lemma UseGas_pay c amount d g t :
  amount <= Gas c ->
  UseGas c amount (mkWorld d g t)
  = ((true, withGas c (Gas c - amount)),
     mkWorld d g (t ++ [EvUseGas amount true])).
Proof.
  intros H. unfold UseGas. by rewrite (proj2 (Z.ltb_ge _ _) H).
Qed.

Lemma UseGas_short c amount d g t :
  Gas c < amount ->
  UseGas c amount (mkWorld d g t)
  = ((false, c), mkWorld d g (t ++ [EvUseGas amount false])).
Proof.
  intros H. unfold UseGas. by rewrite (proj2 (Z.ltb_lt _ _) H).
Qed.

Lemma finalFrame_snoc t c : finalFrame (t ++ [EvFinalise c]) = Some c.
Proof. unfold finalFrame. by rewrite last_snoc. Qed.

Lemma finalFrame_end t l c : finalFrame (t ++ l ++ [EvFinalise c]) = Some c.
Proof. rewrite app_assoc. apply finalFrame_snoc. Qed.

Variables (env : Env) (c : Contract) (input : Bytes) (ro : bool).
Variables (s d : Db) (g : Z) (pre : list Event).

Local Abbreviation r := (Vm env d c input ro).

Lemma runAndRevert_ok :
  rErr r = None ->
  runAndRevert env c input ro s (mkWorld d g pre)
  = ((rRet r, None),
     mkWorld (rDb r) g
       (pre ++ [EvRun c input ro r; EvFinalise (withGas c (rGas r))])).
Proof.
  intros H. unfold runAndRevert. mred. rewrite H. mred.
  by rewrite <- !app_assoc.
Qed.

Lemma runAndRevert_revert :
  rErr r = Some ErrRevert ->
  runAndRevert env c input ro s (mkWorld d g pre)
  = ((rRet r, Some ErrRevert),
     mkWorld s g
       (pre ++ [EvRun c input ro r; EvRevertToSnapshot s;
                EvFinalise (withGas c (rGas r))])).
Proof.
  intros H. unfold runAndRevert. mred. rewrite H. mred.
  rewrite bool_decide_eq_false_2 by (intros Hne; by apply Hne). mred.
  by rewrite <- !app_assoc.
Qed.

Lemma runAndRevert_error e :
  rErr r = Some e -> e <> ErrRevert ->
  runAndRevert env c input ro s (mkWorld d g pre)
  = ((rRet r, Some e),
     mkWorld s g
       (pre ++ [EvRun c input ro r; EvRevertToSnapshot s;
                EvUseGas (rGas r) true; EvFinalise (withGas c 0)])).
Proof.
  intros H Hne. unfold runAndRevert. mred. rewrite H. mred.
  rewrite bool_decide_eq_true_2 by done.
  rewrite UseGas_all. mred.
  by rewrite <- !app_assoc.
Qed.

(** The tail makes exactly one interpreter run. *)
Lemma runAndRevert_ran res w' c' i' ro' r' :
  existsb isRun pre = false ->
  runAndRevert env c input ro s (mkWorld d g pre) = (res, w') ->
  In (EvRun c' i' ro' r') (trace w') ->
  c' = c /\ i' = input /\ ro' = ro /\ r' = r.
Proof.
  intros Hpre Heq Hin.
  assert (Hno : ~ In (EvRun c' i' ro' r') pre).
  { intros Hp. apply not_true_iff_false in Hpre. apply Hpre.
    apply existsb_exists. by exists (EvRun c' i' ro' r'). }
  destruct (rErr r) as [e|] eqn:He.
  - destruct (decide (e = ErrRevert)) as [->|Hne].
    + rewrite (runAndRevert_revert He) in Heq. inversion Heq; subst w'.
      cbn [trace] in Hin. apply in_app_or in Hin as [Hin|Hin]; [done|].
      cbn in Hin. intuition (try discriminate); by simplify_eq.
    + rewrite (runAndRevert_error _ He Hne) in Heq. inversion Heq; subst w'.
      cbn [trace] in Hin. apply in_app_or in Hin as [Hin|Hin]; [done|].
      cbn in Hin. intuition (try discriminate); by simplify_eq.
  - rewrite (runAndRevert_ok He) in Heq. inversion Heq; subst w'.
    cbn [trace] in Hin. apply in_app_or in Hin as [Hin|Hin]; [done|].
    cbn in Hin. intuition (try discriminate); by simplify_eq.
Qed.

End Frame.

(** ** The call variants up to the interpreter run *)

Section Variants.

Context {ext : Externals}.

Variables (env : Env) (caller : ContractRef) (addr : Address).
Variables (input : Bytes) (gas gasPrice value : Z) (d : Db) (g : Z).

Local Abbreviation from := (refAddress caller).

Hypothesis Hdepth : Depth env <= callCreateDepthMax.

(** [Call] on an account that is there. *)
Lemma Call_existing :
  value <= getBalance from d ->
  exist addr d = true ->
  Call env caller addr input gas gasPrice value (enter d g)
  = let dIn := transferred from addr value d in
    runAndRevert env
      (frameOn (NewContract caller addr value gas gasPrice) addr dIn)
      input false d
      (mkWorld dIn g [EvSnapshotDatabase d; EvSubBalance from value;
                      EvAddBalance addr value]).
Proof.
  intros Hf Hex. unfold Call. rewrite (depth_leb _ Hdepth).
  unfold bind at 1. rewrite (funds_enough _ _ _ _ Hf).
  mred. rewrite Hex. mred. reflexivity.
Qed.

(** The test of line 72 on the active set of precompiled contracts. *)
Local Abbreviation skip :=
  (bool_decide (addr ∉ activePrecompiles env)
   && IsHardfork2 (RuleSet env) (BlockNumber env) && (BitLen value =? 0)).

(** [Call] on an account that is not there, lines 72-75. *)
Lemma Call_skipped :
  value <= getBalance from d ->
  exist addr d = false ->
  skip = true ->
  Call env caller addr input gas gasPrice value (enter d g)
  = ((None, None),
     mkWorld d (g + gas) [EvSnapshotDatabase d; EvReturnGas gas gasPrice]).
Proof.
  intros Hf Hex Hskip. unfold Call. rewrite (depth_leb _ Hdepth).
  unfold bind at 1. rewrite (funds_enough _ _ _ _ Hf).
  mred. rewrite Hex. mred.
  unfold activePrecompiles in Hskip. rewrite Hskip. reflexivity.
Qed.

(** [Call] on an account that is not there, line 76. *)
Lemma Call_created :
  value <= getBalance from d ->
  exist addr d = false ->
  skip = false ->
  Call env caller addr input gas gasPrice value (enter d g)
  = let dIn := transferred from addr value (createAccount addr d) in
    runAndRevert env
      (frameOn (NewContract caller addr value gas gasPrice) addr dIn)
      input false d
      (mkWorld dIn g [EvSnapshotDatabase d; EvCreateAccount addr;
                      EvSubBalance from value; EvAddBalance addr value]).
Proof.
  intros Hf Hex Hskip. unfold Call. rewrite (depth_leb _ Hdepth).
  unfold bind at 1. rewrite (funds_enough _ _ _ _ Hf).
  mred. rewrite Hex. mred.
  unfold activePrecompiles in Hskip. rewrite Hskip. reflexivity.
Qed.

Lemma CallCode_runs :
  value <= getBalance from d ->
  CallCode env caller addr input gas gasPrice value (enter d g)
  = runAndRevert env
      (frameOn (NewContract caller from value gas gasPrice) addr d)
      input false d
      (mkWorld d g [EvSnapshotDatabase d]).
Proof.
  intros Hf. unfold CallCode. rewrite (depth_leb _ Hdepth).
  unfold bind at 1. rewrite (funds_enough _ _ _ _ Hf).
  mred. reflexivity.
Qed.

Lemma DelegateCall_runs :
  DelegateCall env caller addr input gas gasPrice (enter d g)
  = let dIn := resolved from d in
    runAndRevert env
      (frameOn (AsDelegate (NewContract caller from (refValue caller)
                              gas gasPrice)) addr dIn)
      input false d
      (mkWorld dIn g (EvSnapshotDatabase d :: resolving from d)).
Proof.
  unfold DelegateCall. rewrite (depth_leb _ Hdepth).
  unfold resolved, resolving. mred.
  destruct (exist from d); mred; reflexivity.
Qed.

Lemma StaticCall_runs :
  StaticCall env caller addr input gas gasPrice (enter d g)
  = let dIn := addBalance addr 0 (resolved addr d) in
    runAndRevert env
      (frameOn (NewContract caller addr 0 gas gasPrice) addr
               (resolved addr d))
      input true d
      (mkWorld dIn g
         (EvSnapshotDatabase d :: resolving addr d ++ [EvAddBalance addr 0])).
Proof.
  unfold StaticCall. rewrite (depth_leb _ Hdepth).
  unfold resolved, resolving. mred.
  destruct (exist addr d); mred; reflexivity.
Qed.

End Variants.

(** ** Every interpreter run of a call variant is the run of its tail *)

Ltac ran_inv Heq Hin Hpre :=
  let H := fresh in
  pose proof (fun Hp => runAndRevert_ran _ _ _ _ _ _ _ _ _ _ _ _ _ _ Hp Heq Hin)
    as H;
  destruct (H Hpre) as (-> & -> & -> & ->); clear H.

Ltac ran_done Heq :=
  refine (ex_intro _ _ (ex_intro _ _ (conj _ (conj _ Heq))));
  first [reflexivity | assumption].

Section Ran.

Context {ext : Externals}.

Variables (env : Env) (caller : ContractRef) (addr : Address).
Variables (input : Bytes) (gas gasPrice value : Z) (d : Db) (g : Z).

Lemma accountCalls_no_run pre :
  forallb isAccountCall pre = true -> existsb isRun pre = false.
Proof.
  induction pre as [|e pre IH]; [done|].
  cbn [forallb existsb]. intros [He Hpre]%andb_true_iff.
  rewrite (IH Hpre), orb_false_r. by destruct e.
Qed.

Lemma resolving_accountCalls a : forallb isAccountCall (resolving a d) = true.
Proof. unfold resolving. by destruct (exist a d). Qed.

Lemma not_ran_rejected c i ro r :
  ~ In (EvRun c i ro r) (trace (rejectedWorld d g gas gasPrice)).
Proof. cbn. intuition discriminate. Qed.

(** A call variant that ran the interpreter took its snapshot on entry,
    made only calls on accounts before the run, and then went through the
    shared tail. *)
Lemma variant_ran v res w' c i ro r :
  callVariant v env caller addr input gas gasPrice value (enter d g)
  = (res, w') ->
  In (EvRun c i ro r) (trace w') ->
  exists dIn pre,
    forallb isAccountCall pre = true
    /\ r = Vm env dIn c i ro
    /\ runAndRevert env c i ro d (mkWorld dIn g (EvSnapshotDatabase d :: pre))
       = (res, w').
Proof.
  intros Heq Hin.
  destruct (Z_le_gt_dec (Depth env) callCreateDepthMax) as [Hd|Hd].
  2:{ exfalso. destruct v; cbn [callVariant] in Heq.
      - rewrite Call_depth in Heq by done. inversion Heq; subst.
        by apply not_ran_rejected in Hin.
      - rewrite CallCode_depth in Heq by done. inversion Heq; subst.
        by apply not_ran_rejected in Hin.
      - rewrite DelegateCall_depth in Heq by done. inversion Heq; subst.
        by apply not_ran_rejected in Hin.
      - rewrite StaticCall_depth in Heq by done. inversion Heq; subst.
        by apply not_ran_rejected in Hin. }
  destruct v; cbn [callVariant] in Heq.
  - (* Call *)
    destruct (Z_lt_le_dec (getBalance (refAddress caller) d) value) as [Hf|Hf].
    { exfalso. rewrite Call_funds in Heq by done. inversion Heq; subst.
      by apply not_ran_rejected in Hin. }
    destruct (exist addr d) eqn:Hex.
    + rewrite Call_existing in Heq by done. cbv zeta in Heq.
      ran_inv Heq Hin (@eq_refl bool false).
      ran_done Heq.
    + destruct (bool_decide (addr ∉ activePrecompiles env)
                && IsHardfork2 (RuleSet env) (BlockNumber env)
                && (BitLen value =? 0)) eqn:Hskip.
      * exfalso. rewrite Call_skipped in Heq by done. inversion Heq; subst.
        cbn in Hin. intuition discriminate.
      * rewrite Call_created in Heq by done. cbv zeta in Heq.
        ran_inv Heq Hin (@eq_refl bool false).
        ran_done Heq.
  - (* CallCode *)
    destruct (Z_lt_le_dec (getBalance (refAddress caller) d) value) as [Hf|Hf].
    { exfalso. unfold CallCode in Heq. rewrite (depth_leb _ Hd) in Heq.
      unfold bind at 1 in Heq. rewrite (funds_short _ _ _ _ Hf) in Heq.
      inversion Heq; subst. cbn in Hin. intuition discriminate. }
    rewrite CallCode_runs in Heq by done.
    ran_inv Heq Hin (@eq_refl bool false).
    ran_done Heq.
  - (* DelegateCall *)
    rewrite DelegateCall_runs in Heq by done. cbv zeta in Heq.
    assert (Hpre : forallb isAccountCall (resolving (refAddress caller) d) = true)
      by apply resolving_accountCalls.
    ran_inv Heq Hin (accountCalls_no_run _ Hpre).
    ran_done Heq.
  - (* StaticCall *)
    rewrite StaticCall_runs in Heq by done. cbv zeta in Heq.
    assert (Hpre : forallb isAccountCall
                     (resolving addr d ++ [EvAddBalance addr 0]) = true).
    { rewrite forallb_app, resolving_accountCalls. reflexivity. }
    ran_inv Heq Hin (accountCalls_no_run _ Hpre).
    ran_done Heq.
Qed.

End Ran.

(** ** Errors of the interpreter in the four call variants *)

Section Filtering.

Lemma filter_disjoint (p q : Event -> bool) (l : list Event) :
  (forall e, p e = true -> q e = false) ->
  forallb p l = true -> List.filter q l = [].
Proof.
  intros Hpq. induction l as [|e l IH]; [done|].
  cbn [forallb List.filter]. intros [He Hl]%andb_true_iff.
  by rewrite (Hpq e He), (IH Hl).
Qed.

Lemma accountCalls_no_snapshot pre :
  forallb isAccountCall pre = true -> List.filter isSnapshot pre = [].
Proof. apply filter_disjoint. by intros []. Qed.

Lemma accountCalls_no_revert pre :
  forallb isAccountCall pre = true -> List.filter isRevert pre = [].
Proof. apply filter_disjoint. by intros []. Qed.

Lemma accountCalls_no_useGas pre :
  forallb isAccountCall pre = true -> List.filter isUseGas pre = [].
Proof. apply filter_disjoint. by intros []. Qed.

Lemma filter_nil_existsb (q : Event -> bool) (l : list Event) :
  List.filter q l = [] -> existsb q l = false.
Proof.
  induction l as [|e l IH]; [done|]. cbn [List.filter existsb].
  destruct (q e); [done|]. exact IH.
Qed.

End Filtering.

(** C3.  In each of the four call variants, when the interpreter returns an
    error, the call returns the output and the error of the interpreter
    and the database is put back to the one snapshot the call took, which
    is the database at entry.  For an error other than [ErrRevert] all the
    gas left on the frame is used up and the frame ends with none; for
    [ErrRevert] no gas is taken and the frame keeps what the interpreter
    left. *)
Theorem call_variants_revert_on_error `{ext : Externals}
    (v : Variant) (env : Env) (caller : ContractRef) (addr : Address)
    (input : Bytes) (gas gasPrice value : Z) (d : Db) (g : Z)
    (res : Bytes * option Error) (w' : World)
    (c : Contract) (i : Bytes) (ro : bool) (r : RunResult) (e : Error) :
  callVariant v env caller addr input gas gasPrice value (enter d g)
  = (res, w') ->
  In (EvRun c i ro r) (trace w') ->
  rErr r = Some e ->
  res = (rRet r, Some e)
  /\ List.filter isSnapshot (trace w') = [EvSnapshotDatabase d]
  /\ List.filter isRevert (trace w') = [EvRevertToSnapshot d]
  /\ db w' = d
  /\ (e <> ErrRevert ->
      List.filter isUseGas (trace w') = [EvUseGas (rGas r) true]
      /\ finalFrame (trace w') = Some (withGas c 0))
  /\ (e = ErrRevert ->
      List.filter isUseGas (trace w') = []
      /\ finalFrame (trace w') = Some (withGas c (rGas r))).
Proof.
  intros Heq Hin He.
  destruct (variant_ran _ _ _ _ _ _ _ _ _ _ _ _ _ _ _ _ Heq Hin)
    as (dIn & pre & Hpre & -> & Htail).
  destruct (decide (e = ErrRevert)) as [->|Hne].
  - rewrite (runAndRevert_revert _ _ _ _ _ _ _ _ He) in Htail.
    inversion Htail; subst res w'; clear Htail.
    cbn [trace db List.filter isSnapshot isRevert isUseGas].
    rewrite !List.filter_app.
    cbn [List.filter isSnapshot isRevert isUseGas].
    rewrite (accountCalls_no_snapshot _ Hpre), (accountCalls_no_revert _ Hpre),
      (accountCalls_no_useGas _ Hpre).
    repeat split; try done.
    apply (finalFrame_end (EvSnapshotDatabase d :: pre) [_; _]).
  - rewrite (runAndRevert_error _ _ _ _ _ _ _ _ _ He Hne) in Htail.
    inversion Htail; subst res w'; clear Htail.
    cbn [trace db List.filter isSnapshot isRevert isUseGas].
    rewrite !List.filter_app.
    cbn [List.filter isSnapshot isRevert isUseGas].
    rewrite (accountCalls_no_snapshot _ Hpre), (accountCalls_no_revert _ Hpre),
      (accountCalls_no_useGas _ Hpre).
    repeat split; try done.
    apply (finalFrame_end (EvSnapshotDatabase d :: pre) [_; _; _]).
Qed.

(** ** StaticCall *)

(** C9.  A [StaticCall] that passes the depth guard takes its snapshot,
    creates the target account when it is not there, adds a balance of zero
    to the target, and runs the interpreter, read-only, on a frame of the
    target whose value is zero.  That balance addition is the only one the
    call makes and that run is its only one. *)
Theorem StaticCall_touches_and_runs_readonly `{ext : Externals}
    (env : Env) (caller : ContractRef) (addr : Address) (input : Bytes)
    (gas gasPrice : Z) (d : Db) (g : Z) :
  Depth env <= callCreateDepthMax ->
  exists frame tl,
    let dIn := addBalance addr 0 (if exist addr d then d
                                  else createAccount addr d) in
    let r := Vm env dIn frame input true in
    trace (snd (StaticCall env caller addr input gas gasPrice (enter d g)))
    = EvSnapshotDatabase d
      :: (if exist addr d then [] else [EvCreateAccount addr])
      ++ EvAddBalance addr 0 :: EvRun frame input true r :: tl
    /\ frameSelf frame = addr
    /\ frameValue frame = 0
    /\ exist addr dIn = true
    /\ List.filter isAddBalance tl = []
    /\ List.filter isRun tl = [].
Proof.
  intros Hd. rewrite (StaticCall_runs _ _ _ _ _ _ _ _ Hd). cbv zeta.
  set (frame := frameOn _ _ _). exists frame.
  assert (Hthere : exist addr (addBalance addr 0 (resolved addr d)) = true).
  { unfold exist, addBalance. by rewrite lookup_insert_eq. }
  fold (resolved addr d). fold (resolving addr d).
  set (dIn := addBalance addr 0 (resolved addr d)) in *.
  destruct (rErr (Vm env dIn frame input true)) as [e|] eqn:He;
    [destruct (decide (e = ErrRevert)) as [->|Hne]|].
  - rewrite (runAndRevert_revert _ _ _ _ _ _ _ _ He). cbn [snd trace app].
    rewrite <- app_assoc. by eexists [_; _].
  - rewrite (runAndRevert_error _ _ _ _ _ _ _ _ _ He Hne). cbn [snd trace app].
    rewrite <- app_assoc. by eexists [_; _; _].
  - rewrite (runAndRevert_ok _ _ _ _ _ _ _ _ He). cbn [snd trace app].
    rewrite <- app_assoc. by eexists [_].
Qed.

(** ** Create *)

Ltac fin_step :=
  first
    [ progress mred
    | progress cbn [andb orb negb]
    | rewrite UseGas_all
    | rewrite UseGas_pay by assumption
    | rewrite UseGas_short by assumption
    | case_bool_decide; try congruence ].

Section Finish.

Context {ext : Externals}.

Variables (env : Env) (address : Address) (s : Db).
Variables (out : Bytes) (err : option Error) (c : Contract).
Variables (dr : Db) (g : Z) (t : list Event).

(** Lines 271-306 spelled out: which calls [createFinish] makes, what it
    returns and which database it leaves, in terms of four decisions. *)
Lemma createFinish_eq :
  createFinish env address s out err c (mkWorld dr g t)
  = let exceeded :=
      (len out >? maxCodeSize)
      && IsHardfork2 (RuleSet env) (BlockNumber env) in
    let charge := bool_decide (err = None) && negb exceeded in
    let dataGas := len out * CreateDataGas in
    let paid := charge && (dataGas <=? Gas c) in
    let err1 :=
      if charge && negb paid then Some CodeStoreOutOfGasError else err in
    let c1 := if paid then withGas c (Gas c - dataGas) else c in
    let decision :=
      exceeded
      || (bool_decide (err1 <> None)
          && (IsHomestead (RuleSet env) (BlockNumber env)
              || bool_decide (err1 <> Some CodeStoreOutOfGasError))) in
    let burn := decision && bool_decide (err1 <> Some ErrRevert) in
    let errF :=
      if exceeded && bool_decide (err1 = None)
      then Some errMaxCodeSizeExceeded else err1 in
    ((if bool_decide (errF <> None) && bool_decide (errF <> Some ErrRevert)
      then None else out, address, errF),
     mkWorld
       (if decision then s else if paid then setCode address out dr else dr)
       g
       (t ++ (if charge then [EvUseGas dataGas paid] else [])
          ++ (if paid then [EvSetCode address out] else [])
          ++ (if decision then [EvRevertToSnapshot s] else [])
          ++ (if burn then [EvUseGas (Gas c1) true] else [])
          ++ [EvFinalise (if burn then withGas c1 0 else c1)])).
Proof.
  cbv zeta. unfold createFinish.
  destruct ((len out >? maxCodeSize)
            && IsHardfork2 (RuleSet env) (BlockNumber env));
  destruct (IsHomestead (RuleSet env) (BlockNumber env));
  destruct err as [e|];
  destruct (Z.leb_spec (len out * CreateDataGas) (Gas c)) as [Hpay|Hpay];
  repeat fin_step; rewrite <- ?app_assoc; reflexivity.
Qed.

End Finish.

Section ErrorTests.

Lemma bd_none_eq (D : Decision (@None Error = None)) :
  @bool_decide _ D = true.
Proof. by apply bool_decide_eq_true_2. Qed.

Lemma bd_some_eq (e : Error) (D : Decision (Some e = None)) :
  @bool_decide _ D = false.
Proof. by apply bool_decide_eq_false_2. Qed.

Lemma bd_none_ne (D : Decision (@None Error <> None)) :
  @bool_decide _ D = false.
Proof. apply bool_decide_eq_false_2. intros H. by apply H. Qed.

Lemma bd_some_ne (e : Error) (D : Decision (Some e <> None)) :
  @bool_decide _ D = true.
Proof. by apply bool_decide_eq_true_2. Qed.

Lemma bd_none_ne_some (e : Error) (D : Decision (None <> Some e)) :
  @bool_decide _ D = true.
Proof. by apply bool_decide_eq_true_2. Qed.

Lemma bd_some_ne_some (e e' : Error) (D : Decision (Some e <> Some e')) :
  @bool_decide _ D = bool_decide (e <> e').
Proof. apply bool_decide_ext. split; congruence. Qed.

End ErrorTests.

Ltac decide_errors :=
  repeat first
    [ progress cbn [andb orb negb]
    | progress rewrite ?bd_none_eq, ?bd_some_eq, ?bd_none_ne, ?bd_some_ne,
        ?bd_none_ne_some, ?bd_some_ne_some
    | case_bool_decide; try congruence ].

Section CreatePaths.

Context {ext : Externals}.

Variables (env : Env) (caller : ContractRef) (cd : list byte).
Variables (gas gasPrice value : Z) (d : Db) (g : Z).

Local Abbreviation from := (refAddress caller).
Local Abbreviation next := (uint64 (getNonce (refAddress caller) d + 1)).
Local Abbreviation address := (derived caller d).
Local Abbreviation d1 := (incremented caller d).
Local Abbreviation frame := (createFrame caller cd gas gasPrice value d).
Local Abbreviation r := (createRun env caller cd gas gasPrice value d).

(** [createFinish] on the result of an interpreter run. *)
Lemma createFinish_run (r0 : RunResult) a s c dr t :
  createFinish env a s (rRet r0) (rErr r0) (withGas c (rGas r0))
    (mkWorld dr g t)
  = ((outputReturned env r0, a, errorReturned env r0),
     mkWorld (if revertDecided env r0 then s
              else if codeStored env r0 then setCode a (rRet r0) dr else dr)
             g (t ++ finishing env r0 a s c)).
Proof.
  rewrite createFinish_eq. cbv zeta.
  unfold outputReturned, errorReturned, finishing, gasBurnt, gasAfterStore,
    revertDecided, codeStored, storeAttempted, errorAtDecision, sizeExceeded.
  cbn [Gas withGas].
  rewrite (Z.ltb_antisym (len (rRet r0) * CreateDataGas)).
  destruct ((len (rRet r0) >? maxCodeSize)
            && IsHardfork2 (RuleSet env) (BlockNumber env));
  destruct (IsHomestead (RuleSet env) (BlockNumber env));
  destruct (rErr r0) as [e|];
  destruct (len (rRet r0) * CreateDataGas <=? rGas r0);
  decide_errors; reflexivity.
Qed.

Lemma Create_path :
  CreatePath env caller cd gas gasPrice value d g
    (Create env caller cd gas gasPrice value (enter d g)).
Proof.
  destruct (Z_le_gt_dec (Depth env) callCreateDepthMax) as [Hd|Hd].
  2:{ rewrite Create_depth by done. by constructor. }
  destruct (Z_lt_le_dec (getBalance from d) value) as [Hf|Hf].
  { rewrite Create_funds by done. by constructor. }
  destruct (collides caller d) eqn:Hc.
  - assert (Heq : Create env caller cd gas gasPrice value (enter d g)
                  = ((None, zeroAddress, Some errContractAddressCollision),
                     mkWorld d1 g [EvSetNonce from next]));
      [|rewrite Heq; by constructor].
    unfold Create. rewrite (depth_leb _ Hd).
    unfold bind at 1. rewrite (funds_enough _ _ _ _ Hf).
    mred. unfold collides, derived, incremented in Hc. rewrite Hc.
    reflexivity.
  - assert (Heq : Create env caller cd gas gasPrice value (enter d g)
                  = ((outputReturned env r, address, errorReturned env r),
                     mkWorld (finished env r address d1) g
                       (EvSetNonce from next :: EvSnapshotDatabase d1
                        :: creating env from address value
                        ++ EvRun frame None false r
                        :: finishing env r address d1 frame)));
      [|rewrite Heq; by constructor].
    unfold Create. rewrite (depth_leb _ Hd).
    unfold bind at 1. rewrite (funds_enough _ _ _ _ Hf).
    mred. unfold collides, derived, incremented in Hc. rewrite Hc.
    transitivity
      (createFinish env address d1 (rRet r) (rErr r) (withGas frame (rGas r))
         (mkWorld (rDb r) g
            ([EvSetNonce from next; EvSnapshotDatabase d1]
             ++ creating env from address value
             ++ [EvRun frame None false r]))).
    + unfold createRun, createFrame, derived, incremented, createDb,
        creating, transferred.
      destruct (IsHardfork2 (RuleSet env) (BlockNumber env)); mred;
        reflexivity.
    + rewrite createFinish_run. unfold finished.
      by rewrite <- !app_assoc.
Qed.

End CreatePaths.

(** ** The decisions of Create *)

Section DecisionFacts.

Context {ext : Externals}.

Variables (env : Env) (r : RunResult).

Local Abbreviation homestead := (IsHomestead (RuleSet env) (BlockNumber env)).

Lemma revertDecided_iff :
  revertDecided env r = true
  <-> sizeExceeded env r = true
      \/ (errorAtDecision env r <> None
          /\ (homestead = true
              \/ errorAtDecision env r <> Some CodeStoreOutOfGasError)).
Proof.
  unfold revertDecided.
  rewrite orb_true_iff, andb_true_iff, orb_true_iff, !bool_decide_eq_true.
  reflexivity.
Qed.

Lemma errorReturned_exceeded :
  sizeExceeded env r = true -> errorAtDecision env r = None ->
  errorReturned env r = Some errMaxCodeSizeExceeded.
Proof.
  intros Hs He. unfold errorReturned.
  by rewrite Hs, He, bd_none_eq.
Qed.

Lemma errorReturned_other :
  ~ (sizeExceeded env r = true /\ errorAtDecision env r = None) ->
  errorReturned env r = errorAtDecision env r.
Proof.
  intros H. unfold errorReturned.
  destruct (sizeExceeded env r); [|done].
  case_bool_decide; [|done]. by destruct H.
Qed.

(** The error at the decision, by cases. *)
Lemma errorAtDecision_failed e :
  rErr r = Some e -> errorAtDecision env r = Some e.
Proof. intros H. unfold errorAtDecision. by rewrite H. Qed.

Lemma errorAtDecision_stored :
  codeStored env r = true -> errorAtDecision env r = None.
Proof.
  unfold codeStored, storeAttempted, errorAtDecision, sizeExceeded.
  intros [[Herr Hs%negb_true_iff]%andb_true_iff Hpay]%andb_true_iff.
  apply bool_decide_eq_true_1 in Herr. rewrite Herr, Hs.
  by rewrite Z.ltb_antisym, Hpay.
Qed.

Lemma errorAtDecision_short :
  storeAttempted env r = true -> codeStored env r = false ->
  errorAtDecision env r = Some CodeStoreOutOfGasError.
Proof.
  unfold codeStored. intros Ha. rewrite Ha. cbn [andb]. intros Hpay.
  revert Ha. unfold storeAttempted, errorAtDecision, sizeExceeded.
  intros [Herr Hs%negb_true_iff]%andb_true_iff.
  apply bool_decide_eq_true_1 in Herr. rewrite Herr, Hs.
  by rewrite Z.ltb_antisym, Hpay.
Qed.

Lemma errorAtDecision_not_attempted :
  storeAttempted env r = false -> errorAtDecision env r = rErr r.
Proof.
  unfold storeAttempted, errorAtDecision, sizeExceeded.
  destruct (rErr r); [done|]. rewrite bd_none_eq. cbn [andb].
  by intros ->%negb_false_iff.
Qed.

(** [ErrRevert] can only come from the interpreter. *)
Lemma errorReturned_revert :
  errorReturned env r = Some ErrRevert ->
  rErr r = Some ErrRevert /\ outputReturned env r = rRet r.
Proof.
  intros H. split.
  - revert H. unfold errorReturned, errorAtDecision.
    destruct (rErr r) as [e|]; decide_errors; try done;
      destruct (sizeExceeded env r); cbn [andb];
      repeat case_match; congruence.
  - unfold outputReturned. rewrite H, bd_some_ne, bd_some_ne_some.
    by rewrite (bool_decide_eq_false_2 (ErrRevert <> ErrRevert))
      by (intros Hne; by apply Hne).
Qed.

Lemma outputReturned_error e :
  errorReturned env r = Some e -> e <> ErrRevert ->
  outputReturned env r = None.
Proof.
  intros H Hne. unfold outputReturned.
  rewrite H, bd_some_ne, bd_some_ne_some. by rewrite bool_decide_eq_true_2.
Qed.

Lemma outputReturned_ok :
  errorReturned env r = None -> outputReturned env r = rRet r.
Proof. intros H. unfold outputReturned. by rewrite H, bd_none_ne. Qed.

(** Every returned error but [CodeStoreOutOfGasError] comes with a
    revert. *)
Lemma revertDecided_of_error e :
  errorReturned env r = Some e -> e <> CodeStoreOutOfGasError ->
  revertDecided env r = true.
Proof.
  unfold errorReturned, revertDecided. intros H Hne.
  destruct (sizeExceeded env r); [done|]. cbn [andb orb] in *.
  rewrite H, bd_some_ne, bd_some_ne_some.
  rewrite (bool_decide_eq_true_2 _ Hne). apply orb_true_r.
Qed.

(** The code storage of lines 276-285, when the interpreter succeeded with
    a code that is not too long. *)
Lemma store_attempted :
  rErr r = None -> len (rRet r) <= maxCodeSize ->
  sizeExceeded env r = false /\ storeAttempted env r = true.
Proof.
  intros Herr Hlen. unfold storeAttempted, sizeExceeded.
  assert (Hsize : (len (rRet r) >? maxCodeSize) = false).
  { rewrite Z.gtb_ltb. apply Z.ltb_ge. lia. }
  by rewrite Herr, Hsize, bd_none_eq.
Qed.

Lemma store_paid :
  rErr r = None -> len (rRet r) <= maxCodeSize ->
  len (rRet r) * CreateDataGas <= rGas r ->
  codeStored env r = true
  /\ revertDecided env r = false
  /\ gasBurnt env r = false
  /\ errorReturned env r = None
  /\ outputReturned env r = rRet r.
Proof.
  intros Herr Hlen Hgas.
  destruct (store_attempted Herr Hlen) as [Hs Ha].
  assert (Hc : codeStored env r = true).
  { unfold codeStored. rewrite Ha. by apply Z.leb_le. }
  assert (He : errorAtDecision env r = None)
    by by apply errorAtDecision_stored.
  assert (Hr : revertDecided env r = false).
  { unfold revertDecided. by rewrite Hs, He, bd_none_ne. }
  assert (Hret : errorReturned env r = None).
  { rewrite errorReturned_other; [done|]. rewrite Hs. by intros []. }
  repeat split; try done.
  - unfold gasBurnt. by rewrite Hr.
  - by apply outputReturned_ok.
Qed.

Lemma store_short :
  rErr r = None -> len (rRet r) <= maxCodeSize ->
  rGas r < len (rRet r) * CreateDataGas ->
  codeStored env r = false
  /\ revertDecided env r = homestead
  /\ gasBurnt env r = homestead
  /\ errorReturned env r = Some CodeStoreOutOfGasError
  /\ outputReturned env r = None.
Proof.
  intros Herr Hlen Hgas.
  destruct (store_attempted Herr Hlen) as [Hs Ha].
  assert (Hc : codeStored env r = false).
  { unfold codeStored. rewrite Ha. by apply Z.leb_gt. }
  assert (He : errorAtDecision env r = Some CodeStoreOutOfGasError)
    by by apply errorAtDecision_short.
  assert (Hr : revertDecided env r = homestead).
  { unfold revertDecided. rewrite Hs, He, bd_some_ne. cbn [orb andb].
    rewrite bool_decide_eq_false_2 by (intros H; by apply H).
    apply orb_false_r. }
  assert (Hret : errorReturned env r = Some CodeStoreOutOfGasError).
  { rewrite errorReturned_other; [done|]. rewrite Hs. by intros []. }
  repeat split; try done.
  - unfold gasBurnt. rewrite Hr, He.
    rewrite bool_decide_eq_true_2 by done. apply andb_true_r.
  - by apply (outputReturned_error _ Hret).
Qed.

End DecisionFacts.

(** ** The calls of a Create that runs the interpreter *)

Section RanTrace.

Context {ext : Externals}.

Variables (env : Env) (r : RunResult) (a : Address) (s : Db) (c : Contract).
Variables (from : Address) (value : Z).

Lemma creating_accountCalls :
  forallb isAccountCall (creating env from a value) = true.
Proof. unfold creating. by destruct (IsHardfork2 _ _). Qed.

Lemma finishing_reverts :
  List.filter isRevert (finishing env r a s c)
  = if revertDecided env r then [EvRevertToSnapshot s] else [].
Proof. unfold finishing. by repeat case_match. Qed.

Lemma finishing_setCode :
  List.filter isSetCode (finishing env r a s c)
  = if codeStored env r then [EvSetCode a (rRet r)] else [].
Proof. unfold finishing. by repeat case_match. Qed.

Lemma finishing_useGas :
  List.filter isUseGas (finishing env r a s c)
  = (if storeAttempted env r
     then [EvUseGas (len (rRet r) * CreateDataGas) (codeStored env r)]
     else [])
    ++ (if gasBurnt env r then [EvUseGas (gasAfterStore env r) true] else []).
Proof. unfold finishing. by repeat case_match. Qed.

Lemma finishing_no_run : List.filter isRun (finishing env r a s c) = [].
Proof. unfold finishing. by repeat case_match. Qed.

Lemma finishing_no_returnGas :
  List.filter isReturnGas (finishing env r a s c) = [].
Proof. unfold finishing. by repeat case_match. Qed.

Lemma finishing_no_snapshot :
  List.filter isSnapshot (finishing env r a s c) = [].
Proof. unfold finishing. by repeat case_match. Qed.

Lemma finishing_finalFrame t :
  finalFrame (t ++ finishing env r a s c)
  = Some (withGas c (if gasBurnt env r then 0 else gasAfterStore env r)).
Proof.
  unfold finishing. rewrite !app_assoc. apply finalFrame_snoc.
Qed.

Variables (e1 e2 : Event) (run : Event).

Local Abbreviation ranTrace :=
  (e1 :: e2 :: creating env from a value ++ run :: finishing env r a s c).

(** Filtering the calls of a [Create] that ran: the two calls before the
    account calls, the run, and the calls of [createFinish]. *)
Lemma ranTrace_filter (q : Event -> bool) :
  (forall e, isAccountCall e = true -> q e = false) ->
  List.filter q ranTrace
  = List.filter q [e1; e2] ++ List.filter q [run]
    ++ List.filter q (finishing env r a s c).
Proof.
  intros Hq.
  change ranTrace
    with ([e1; e2] ++ creating env from a value
          ++ [run] ++ finishing env r a s c).
  rewrite !List.filter_app.
  by rewrite (filter_disjoint _ _ _ Hq creating_accountCalls).
Qed.

Lemma ranTrace_finalFrame :
  finalFrame ranTrace
  = Some (withGas c (if gasBurnt env r then 0 else gasAfterStore env r)).
Proof.
  rewrite <- (finishing_finalFrame
                ([e1; e2] ++ creating env from a value ++ [run])).
  f_equal. by rewrite <- !app_assoc.
Qed.

End RanTrace.

Lemma existsb_filter {A} (q : A -> bool) (l : list A) :
  existsb q l = match List.filter q l with [] => false | _ => true end.
Proof.
  induction l as [|x l IH]; [done|]. cbn [existsb List.filter].
  destruct (q x); [done|]. exact IH.
Qed.

Lemma In_filter_singleton {A} (q : A -> bool) (l : list A) (x y : A) :
  List.filter q l = [y] -> In x l -> q x = true -> x = y.
Proof.
  intros Hf Hin Hq.
  assert (H : In x (List.filter q l)) by (apply filter_In; by split).
  rewrite Hf in H. by destruct H as [->|[]].
Qed.

Lemma In_filter_nil {A} (q : A -> bool) (l : list A) (x : A) :
  List.filter q l = [] -> In x l -> q x = false.
Proof.
  intros Hf Hin. destruct (q x) eqn:Hq; [|done].
  assert (H : In x (List.filter q l)) by (apply filter_In; by split).
  rewrite Hf in H. destruct H.
Qed.

Ltac create_paths Heq :=
  let P := fresh "P" in
  match type of Heq with
  | Create ?env ?caller ?cd ?gas ?gp ?v (enter ?d ?g) = _ =>
      pose proof (Create_path env caller cd gas gp v d g) as P
  end;
  rewrite Heq in P; clear Heq;
  match type of P with
  | CreatePath _ _ _ _ _ _ _ _ ?X =>
      let Y := fresh in
      let E := fresh "E" in
      remember X as Y eqn:E; destruct P; simplify_eq
  end.

Section CreateRan.

Context {ext : Externals}.

Variables (env : Env) (caller : ContractRef) (cd : list byte).
Variables (gas gasPrice value : Z) (d : Db) (g : Z).

Local Abbreviation from := (refAddress caller).
Local Abbreviation next := (uint64 (getNonce (refAddress caller) d + 1)).
Local Abbreviation address := (derived caller d).
Local Abbreviation d1 := (incremented caller d).
Local Abbreviation frame := (createFrame caller cd gas gasPrice value d).
Local Abbreviation r := (createRun env caller cd gas gasPrice value d).

(** The interpreter runs in [Create] only on the run path, once, on the
    frame of the new contract. *)
Lemma Create_ran res w' c i ro r' :
  Create env caller cd gas gasPrice value (enter d g) = (res, w') ->
  In (EvRun c i ro r') (trace w') ->
  c = frame /\ i = None /\ ro = false /\ r' = r
  /\ res = (outputReturned env r, address, errorReturned env r)
  /\ w' = mkWorld (finished env r address d1) g
            (EvSetNonce from next :: EvSnapshotDatabase d1
             :: creating env from address value
             ++ EvRun frame None false r
             :: finishing env r address d1 frame).
Proof.
  intros Heq Hin. create_paths Heq.
  1-3: cbn in Hin; exfalso; intuition discriminate.
  cbn [trace] in Hin.
  assert (Hrun : EvRun c i ro r' = EvRun frame None false r).
  { refine (In_filter_singleton isRun _ _ _ _ Hin eq_refl).
    rewrite ranTrace_filter by (by intros []).
    by rewrite finishing_no_run. }
  by inversion Hrun.
Qed.

End CreateRan.

(** C1, amended.  After the interpreter ran in [Create], the state is
    reverted to the snapshot exactly when the returned code exceeds the
    maximum size under [IsHardfork2], or when there is an error at that
    point and either the rule set is at [IsHomestead] or the error is not
    [CodeStoreOutOfGasError].  The rule-set query of the revert decision is
    [IsHomestead]; it is not [IsHardfork2], the query that gates the nonce
    adjustment of lines 256-258 and the code size limit.  When the size is
    exceeded and there is no other error the call returns
    [errMaxCodeSizeExceeded]; otherwise it returns the error the revert
    decision saw. *)
Theorem Create_revert_decision `{ext : Externals}
    (env : Env) (caller : ContractRef) (cd : list byte)
    (gas gasPrice value : Z) (d : Db) (g : Z)
    (out : Bytes) (a : Address) (errF : option Error) (w' : World)
    (c : Contract) (i : Bytes) (ro : bool) (r : RunResult) :
  Create env caller cd gas gasPrice value (enter d g) = ((out, a, errF), w') ->
  In (EvRun c i ro r) (trace w') ->
  let exceeded :=
    (len (rRet r) >? maxCodeSize)
    && IsHardfork2 (RuleSet env) (BlockNumber env) in
  let err := errorAtDecision env r in
  (existsb isRevert (trace w') = true
   <-> exceeded = true
       \/ (err <> None
           /\ (IsHomestead (RuleSet env) (BlockNumber env) = true
               \/ err <> Some CodeStoreOutOfGasError)))
  /\ (exceeded = true -> err = None -> errF = Some errMaxCodeSizeExceeded)
  /\ (~ (exceeded = true /\ err = None) -> errF = err).
Proof.
  intros Heq Hin.
  destruct (Create_ran _ _ _ _ _ _ _ _ _ _ _ _ _ _ Heq Hin)
    as (_ & _ & _ & -> & [= -> -> ->] & ->).
  cbv zeta. fold (sizeExceeded env (createRun env caller cd gas gasPrice value d)).
  split; [|split].
  - rewrite <- revertDecided_iff, existsb_filter. cbn [trace].
    rewrite ranTrace_filter by (by intros []).
    rewrite finishing_reverts. cbn [List.filter isRevert app].
    by destruct (revertDecided _ _).
  - apply errorReturned_exceeded.
  - apply errorReturned_other.
Qed.

(** C6.  In [Create], when the interpreter returns no error and the
    returned code is not longer than the maximum code size, the frame is
    charged the length of the code times [CreateDataGas].  If the frame can
    pay, the charge is taken, the returned bytes are stored as the code of
    the new account, nothing is reverted and the call succeeds.  If it
    cannot, nothing is taken for the code, no code is stored and the error
    is [CodeStoreOutOfGasError]. *)
Theorem Create_code_storage `{ext : Externals}
    (env : Env) (caller : ContractRef) (cd : list byte)
    (gas gasPrice value : Z) (d : Db) (g : Z)
    (out : Bytes) (a : Address) (errF : option Error) (w' : World)
    (c : Contract) (i : Bytes) (ro : bool) (r : RunResult) :
  Create env caller cd gas gasPrice value (enter d g) = ((out, a, errF), w') ->
  In (EvRun c i ro r) (trace w') ->
  rErr r = None ->
  len (rRet r) <= maxCodeSize ->
  let dataGas := len (rRet r) * CreateDataGas in
  let n := getNonce (refAddress caller) d in
  let address := CreateAddress (refAddress caller) n in
  let snapshot := setNonce (refAddress caller) (uint64 (n + 1)) d in
  let homestead := IsHomestead (RuleSet env) (BlockNumber env) in
  (dataGas <= rGas r ->
     List.filter isUseGas (trace w') = [EvUseGas dataGas true]
     /\ List.filter isSetCode (trace w') = [EvSetCode address (rRet r)]
     /\ List.filter isRevert (trace w') = []
     /\ db w' = setCode address (rRet r) (rDb r)
     /\ getCode address (db w') = bytesOf (rRet r)
     /\ finalFrame (trace w') = Some (withGas c (rGas r - dataGas))
     /\ (out, a, errF) = (rRet r, address, None))
  /\ (rGas r < dataGas ->
     List.filter isUseGas (trace w')
     = EvUseGas dataGas false
       :: (if homestead then [EvUseGas (rGas r) true] else [])
     /\ List.filter isSetCode (trace w') = []
     /\ db w' = (if homestead then snapshot else rDb r)
     /\ (out, a, errF) = (None, address, Some CodeStoreOutOfGasError)).
Proof.
  intros Heq Hin Herr Hlen.
  destruct (Create_ran _ _ _ _ _ _ _ _ _ _ _ _ _ _ Heq Hin)
    as (-> & _ & _ & -> & [= -> -> ->] & ->).
  clear Heq Hin. cbv zeta. cbn [trace db].
  rewrite !ranTrace_filter by (by intros []).
  rewrite finishing_useGas, finishing_setCode, finishing_reverts.
  rewrite ranTrace_finalFrame.
  destruct (store_attempted env _ Herr Hlen) as [_ Ha].
  unfold finished, gasAfterStore. rewrite Ha.
  split; intros Hgas.
  - destruct (store_paid env _ Herr Hlen Hgas) as (-> & -> & -> & -> & ->).
    by rewrite getCode_setCode.
  - destruct (store_short env _ Herr Hlen Hgas) as (-> & -> & -> & -> & ->).
    by destruct (IsHomestead _ _).
Qed.

(** C7, amended.  A [Create] that ends with an error other than
    [ErrRevert] returns a nil output.  It returns the zero address when it
    ends before the interpreter runs, at a guard or at the collision check,
    and the derived contract address, together with the error, whenever the
    interpreter ran.  A [Create] that ends with [ErrRevert] got it from the
    interpreter and returns the output of that run. *)
Theorem Create_error_result `{ext : Externals}
    (env : Env) (caller : ContractRef) (cd : list byte)
    (gas gasPrice value : Z) (d : Db) (g : Z)
    (out : Bytes) (a : Address) (errF : option Error) (w' : World) :
  Create env caller cd gas gasPrice value (enter d g) = ((out, a, errF), w') ->
  (forall e, errF = Some e -> e <> ErrRevert -> out = None)
  /\ (List.filter isRun (trace w') = [] -> a = zeroAddress)
  /\ (List.filter isRun (trace w') <> [] ->
      a = CreateAddress (refAddress caller) (getNonce (refAddress caller) d))
  /\ (errF = Some ErrRevert ->
      exists c r,
        List.filter isRun (trace w') = [EvRun c None false r]
        /\ rErr r = Some ErrRevert /\ out = rRet r).
Proof.
  intros Heq. create_paths Heq.
  1-3: by repeat split.
  cbn [trace]. rewrite ranTrace_filter by (by intros []).
  rewrite finishing_no_run. cbn [List.filter isRun app].
  split; [|split; [done|split; [done|]]].
  - intros e. apply outputReturned_error.
  - intros [Hr Ho]%errorReturned_revert. eauto.
Qed.

(** C10.  When [Create] returns [errContractAddressCollision], it has not
    called [ReturnGas]: the caller has the gas it had, and its nonce is the
    one before the call plus one.  At the collision check itself the nonce
    increment is the only call made: no snapshot is taken and nothing else
    in the database changes. *)
Theorem Create_collision_keeps_gas `{ext : Externals}
    (env : Env) (caller : ContractRef) (cd : list byte)
    (gas gasPrice value : Z) (d : Db) (g : Z)
    (out : Bytes) (a : Address) (w' : World) :
  Create env caller cd gas gasPrice value (enter d g)
  = ((out, a, Some errContractAddressCollision), w') ->
  let n := getNonce (refAddress caller) d in
  List.filter isReturnGas (trace w') = []
  /\ callerGas w' = g
  /\ getNonce (refAddress caller) (db w') = uint64 (n + 1)
  /\ ((n + 1 < 2 ^ 64)%N -> getNonce (refAddress caller) (db w') = (n + 1)%N)
  /\ (List.filter isRun (trace w') = [] ->
      (out, a) = (None, zeroAddress)
      /\ trace w' = [EvSetNonce (refAddress caller) (uint64 (n + 1))]
      /\ db w' = setNonce (refAddress caller) (uint64 (n + 1)) d).
Proof.
  intros Heq. create_paths Heq.
  - cbn [trace db callerGas List.filter isReturnGas isRun].
    unfold incremented. rewrite getNonce_setNonce_eq.
    repeat split; try done. apply uint64_small.
  - match goal with
    | H : errorReturned _ _ = Some errContractAddressCollision |- _ =>
        pose proof (revertDecided_of_error _ _ _ H ltac:(done)) as Hrev
    end.
    cbn [trace db callerGas]. rewrite !ranTrace_filter by (by intros []).
    rewrite finishing_no_returnGas, finishing_no_run.
    unfold finished. rewrite Hrev. unfold incremented.
    rewrite getNonce_setNonce_eq.
    repeat split; try done. apply uint64_small.
Qed.

(** C5, amended.  A [Create] that passes the depth and funds guards, and
    whose derived address holds, when line 245 reads it, an account with a
    nonce other than [StartingNonce] or with a code hash that is neither the
    zero hash nor the hash of the empty code, returns
    [errContractAddressCollision] with a nil output and the zero address.
    The nonce increment of the caller is the only call made: no value is
    transferred and every balance is as it was. *)
Theorem Create_collision_no_transfer `{ext : Externals}
    (env : Env) (caller : ContractRef) (cd : list byte)
    (gas gasPrice value : Z) (d : Db) (g : Z) :
  let from := refAddress caller in
  let n := getNonce from d in
  let address := CreateAddress from n in
  let d1 := setNonce from (uint64 (n + 1)) d in
  Depth env <= callCreateDepthMax ->
  value <= getBalance from d ->
  getNonce address d1 <> StartingNonce
  \/ (getCodeHash address d1 <> zeroHash
      /\ getCodeHash address d1 <> emptyCodeHash) ->
  Create env caller cd gas gasPrice value (enter d g)
  = ((None, zeroAddress, Some errContractAddressCollision),
     mkWorld d1 g [EvSetNonce from (uint64 (n + 1))])
  /\ (forall b, getBalance b d1 = getBalance b d).
Proof.
  cbv zeta. intros Hd Hf Hc.
  split; [|intros b; apply getBalance_setNonce].
  assert (Hcol : collides caller d = true).
  { unfold collides, derived, incremented.
    destruct Hc as [Hn|[Hz He]].
    - by rewrite (bool_decide_eq_true_2 _ Hn).
    - rewrite (bool_decide_eq_true_2 _ Hz), (bool_decide_eq_true_2 _ He).
      apply orb_true_r. }
  pose proof (Create_path env caller cd gas gasPrice value d g) as P.
  remember (Create env caller cd gas gasPrice value (enter d g)) as X.
  destruct P as [Hx|Hx Hy|Hx Hy Hz|Hx Hy Hz];
    [lia|lia|reflexivity|congruence].
Qed.

(** C4, amended.  For a [Create] that passes the depth and funds guards,
    the contract address is [CreateAddress] of the caller's address and of
    its nonce before the call; it is the address of the frame the
    interpreter runs on, and the address returned unless the call ends at
    the collision check.  The first call made sets the caller's nonce to the
    nonce before plus one, in [uint64]; the snapshot is taken after it and
    holds that nonce, so the collision exit and every exit that reverts
    leave the caller's nonce at the nonce before plus one.  On an exit
    without revert the caller's nonce is the one the interpreter run left
    in the database. *)
Theorem Create_nonce_increment `{ext : Externals}
    (env : Env) (caller : ContractRef) (cd : list byte)
    (gas gasPrice value : Z) (d : Db) (g : Z)
    (out : Bytes) (a : Address) (errF : option Error) (w' : World) :
  let from := refAddress caller in
  let n := getNonce from d in
  let address := CreateAddress from n in
  Depth env <= callCreateDepthMax ->
  value <= getBalance from d ->
  Create env caller cd gas gasPrice value (enter d g) = ((out, a, errF), w') ->
  (a = address
   \/ (a = zeroAddress /\ errF = Some errContractAddressCollision
       /\ List.filter isRun (trace w') = []))
  /\ (exists tl, trace w' = EvSetNonce from (uint64 (n + 1)) :: tl)
  /\ ((n + 1 < 2 ^ 64)%N -> uint64 (n + 1) = (n + 1)%N)
  /\ (forall s, In (EvSnapshotDatabase s) (trace w') ->
      getNonce from s = uint64 (n + 1))
  /\ (forall c i ro r, In (EvRun c i ro r) (trace w') ->
      frameSelf c = address)
  /\ (List.filter isRun (trace w') = []
      \/ List.filter isRevert (trace w') <> [] ->
      getNonce from (db w') = uint64 (n + 1))
  /\ (forall c i ro r, In (EvRun c i ro r) (trace w') ->
      List.filter isRevert (trace w') = [] ->
      getNonce from (db w') = getNonce from (rDb r)).
Proof.
  cbv zeta. intros Hd Hf Heq.
  pose proof Heq as Hran. create_paths Heq; try lia.
  - (* the collision exit *)
    cbn [trace db]. unfold incremented.
    rewrite getNonce_setNonce_eq.
    repeat split; eauto using uint64_small;
      try (intros; cbn in *; intuition discriminate).
  - (* the interpreter ran *)
    split; [by left|]. split; [by eexists|].
    split; [apply uint64_small|].
    split; [|split; [|split]].
    + intros s Hin. cbn [trace] in Hin.
      assert (Hs : EvSnapshotDatabase s
                   = EvSnapshotDatabase (incremented caller d)).
      { refine (In_filter_singleton isSnapshot _ _ _ _ Hin eq_refl).
        rewrite ranTrace_filter by (by intros []).
        by rewrite finishing_no_snapshot. }
      injection Hs as ->. apply getNonce_setNonce_eq.
    + intros c i ro r Hin.
      by destruct (Create_ran _ _ _ _ _ _ _ _ _ _ _ _ _ _ Hran Hin)
        as (-> & _).
    + cbn [trace db]. rewrite !ranTrace_filter by (by intros []).
      rewrite finishing_no_run, finishing_reverts.
      cbn [List.filter isRun isRevert app]. unfold finished.
      intros [|Hrev]; [done|].
      destruct (revertDecided _ _); [|done]. apply getNonce_setNonce_eq.
    + intros c i ro r Hin.
      destruct (Create_ran _ _ _ _ _ _ _ _ _ _ _ _ _ _ Hran Hin)
        as (_ & _ & _ & -> & _).
      cbn [trace db]. rewrite !ranTrace_filter by (by intros []).
      rewrite finishing_reverts. cbn [List.filter isRevert app].
      unfold finished. destruct (revertDecided _ _); [done|]. intros _.
      destruct (codeStored _ _); [|done]. apply getNonce_setCode.
Qed.

(** C2, amended.  For a [Call] that passes the depth and funds guards and
    whose target is not in the database: if the value is zero, the target
    is not among the active precompiled contracts and [IsHardfork2] holds,
    the call returns a nil output and no error, gives all the gas back with
    [ReturnGas], and leaves the database as it was, so no account is
    created.  Otherwise it creates the target account right after the
    snapshot, once, transfers the value and runs the interpreter on a frame
    of the target, in a database in which the target is there. *)
Theorem Call_absent_target `{ext : Externals}
    (env : Env) (caller : ContractRef) (addr : Address) (input : Bytes)
    (gas gasPrice value : Z) (d : Db) (g : Z) :
  let from := refAddress caller in
  let skipped :=
    value = 0 /\ (addr ∉ activePrecompiles env)
    /\ IsHardfork2 (RuleSet env) (BlockNumber env) = true in
  Depth env <= callCreateDepthMax ->
  value <= getBalance from d ->
  exist addr d = false ->
  (skipped ->
   Call env caller addr input gas gasPrice value (enter d g)
   = ((None, None),
      mkWorld d (g + gas) [EvSnapshotDatabase d; EvReturnGas gas gasPrice]))
  /\ (~ skipped ->
      exists frame tl,
        let dIn := transferred from addr value (createAccount addr d) in
        trace (snd (Call env caller addr input gas gasPrice value
                      (enter d g)))
        = [EvSnapshotDatabase d; EvCreateAccount addr;
           EvSubBalance from value; EvAddBalance addr value;
           EvRun frame input false (Vm env dIn frame input false)] ++ tl
        /\ frameSelf frame = addr
        /\ exist addr dIn = true
        /\ List.filter isCreateAccount tl = []).
Proof.
  cbv zeta. intros Hd Hf Hex.
  assert (Hskip :
    bool_decide (addr ∉ activePrecompiles env)
    && IsHardfork2 (RuleSet env) (BlockNumber env) && (BitLen value =? 0)
    = true
    <-> value = 0 /\ (addr ∉ activePrecompiles env)
        /\ IsHardfork2 (RuleSet env) (BlockNumber env) = true).
  { rewrite !andb_true_iff, bool_decide_eq_true, Z.eqb_eq, BitLen_zero.
    tauto. }
  split.
  - intros Hs. apply Call_skipped; try done. by apply Hskip.
  - intros Hs. rewrite Call_created; try done.
    2:{ apply not_true_iff_false. by rewrite Hskip. }
    cbv zeta. set (frame := frameOn _ _ _).
    set (dIn := transferred _ _ _ _).
    assert (Hthere : exist addr dIn = true).
    { unfold dIn, transferred, exist, addBalance.
      by rewrite lookup_insert_eq. }
    exists frame.
    destruct (rErr (Vm env dIn frame input false)) as [e|] eqn:He;
      [destruct (decide (e = ErrRevert)) as [->|Hne]|].
    + rewrite (runAndRevert_revert _ _ _ _ _ _ _ _ He). by eexists [_; _].
    + rewrite (runAndRevert_error _ _ _ _ _ _ _ _ _ He Hne).
      by eexists [_; _; _].
    + rewrite (runAndRevert_ok _ _ _ _ _ _ _ _ He). by eexists [_].
Qed.

(** C8.  When the depth exceeds 1024, each of the five entry points
    returns [errCallCreateDepth] with a nil output, gives all the gas back
    with [ReturnGas], and makes no other call: no snapshot is taken and the
    database is as it was.  When the depth is within the limit and the
    balance of the caller is less than the value, [Call] and [Create] do
    the same with a [ValueTransferErr] that carries the value asked for and
    the balance the caller has. *)
Theorem guards_reject `{ext : Externals}
    (env : Env) (caller : ContractRef) (addr : Address) (input : Bytes)
    (cd : list byte) (gas gasPrice value : Z) (d : Db) (g : Z) :
  let rejected := mkWorld d (g + gas) [EvReturnGas gas gasPrice] in
  let has := getBalance (refAddress caller) d in
  (Depth env > callCreateDepthMax ->
   Call env caller addr input gas gasPrice value (enter d g)
   = ((None, Some errCallCreateDepth), rejected)
   /\ CallCode env caller addr input gas gasPrice value (enter d g)
      = ((None, Some errCallCreateDepth), rejected)
   /\ DelegateCall env caller addr input gas gasPrice (enter d g)
      = ((None, Some errCallCreateDepth), rejected)
   /\ StaticCall env caller addr input gas gasPrice (enter d g)
      = ((None, Some errCallCreateDepth), rejected)
   /\ Create env caller cd gas gasPrice value (enter d g)
      = ((None, zeroAddress, Some errCallCreateDepth), rejected))
  /\ (Depth env <= callCreateDepthMax -> has < value ->
      Call env caller addr input gas gasPrice value (enter d g)
      = ((None, Some (ValueTransferErr value has)), rejected)
      /\ Create env caller cd gas gasPrice value (enter d g)
         = ((None, zeroAddress, Some (ValueTransferErr value has)),
            rejected)).
Proof.
  cbv zeta. split.
  - intros Hd. repeat split.
    + by apply Call_depth.
    + by apply CallCode_depth.
    + by apply DelegateCall_depth.
    + by apply StaticCall_depth.
    + by apply Create_depth.
  - intros Hd Hf. split.
    + by apply Call_funds.
    + by apply Create_funds.
Qed.


(** * The paths of the dispatcher *)

(** ** Balances after the writes of the dispatcher *)

Section Balances.

Context {ext : Externals}.

Lemma getBalance_createAccount a b (d : Db) :
  getBalance b (createAccount a d) = getBalance b d.
Proof.
  unfold createAccount, getBalance at 1.
  destruct (decide (a = b)) as [->|Hne].
  - by rewrite lookup_insert_eq.
  - by rewrite lookup_insert_ne.
Qed.

Lemma getBalance_resolved a b (d : Db) :
  getBalance b (resolved a d) = getBalance b d.
Proof.
  unfold resolved. destruct (exist a d); [done|].
  apply getBalance_createAccount.
Qed.

Lemma getBalance_addBalance a b amount (d : Db) :
  getBalance b (addBalance a amount d)
  = getBalance b d + (if bool_decide (b = a) then amount else 0).
Proof.
  unfold addBalance, getBalance, getOrNew.
  case_bool_decide as Hb.
  - subst b. rewrite lookup_insert_eq. by destruct (d !! a).
  - rewrite lookup_insert_ne by done. lia.
Qed.

Lemma getBalance_subBalance a b amount (d : Db) :
  getBalance b (subBalance a amount d)
  = getBalance b d - (if bool_decide (b = a) then amount else 0).
Proof.
  unfold subBalance, getBalance, getOrNew.
  case_bool_decide as Hb.
  - subst b. rewrite lookup_insert_eq. by destruct (d !! a).
  - rewrite lookup_insert_ne by done. lia.
Qed.

Lemma getBalance_transferred from to b amount (d : Db) :
  getBalance b (transferred from to amount d)
  = getBalance b d - (if bool_decide (b = from) then amount else 0)
    + (if bool_decide (b = to) then amount else 0).
Proof.
  unfold transferred.
  by rewrite getBalance_addBalance, getBalance_subBalance.
Qed.

Lemma getNonce_addBalance a b amount (d : Db) :
  getNonce b (addBalance a amount d) = getNonce b d.
Proof.
  unfold getNonce, addBalance, getOrNew.
  destruct (decide (a = b)) as [->|Hne].
  - rewrite lookup_insert_eq. by destruct (d !! b).
  - by rewrite lookup_insert_ne.
Qed.

Lemma getNonce_subBalance a b amount (d : Db) :
  getNonce b (subBalance a amount d) = getNonce b d.
Proof.
  unfold getNonce, subBalance, getOrNew.
  destruct (decide (a = b)) as [->|Hne].
  - rewrite lookup_insert_eq. by destruct (d !! b).
  - by rewrite lookup_insert_ne.
Qed.

Lemma getNonce_transferred from to b amount (d : Db) :
  getNonce b (transferred from to amount d) = getNonce b d.
Proof.
  unfold transferred. by rewrite getNonce_addBalance, getNonce_subBalance.
Qed.

Lemma getCode_addBalance a b amount (d : Db) :
  getCode b (addBalance a amount d) = getCode b d.
Proof.
  unfold getCode, addBalance, getOrNew.
  destruct (decide (a = b)) as [->|Hne].
  - rewrite lookup_insert_eq. by destruct (d !! b).
  - by rewrite lookup_insert_ne.
Qed.

Lemma getCode_subBalance a b amount (d : Db) :
  getCode b (subBalance a amount d) = getCode b d.
Proof.
  unfold getCode, subBalance, getOrNew.
  destruct (decide (a = b)) as [->|Hne].
  - rewrite lookup_insert_eq. by destruct (d !! b).
  - by rewrite lookup_insert_ne.
Qed.

Lemma getCode_transferred from to b amount (d : Db) :
  getCode b (transferred from to amount d) = getCode b d.
Proof.
  unfold transferred. by rewrite getCode_addBalance, getCode_subBalance.
Qed.

Lemma getNonce_setNonce_ne a b n (d : Db) :
  a <> b -> getNonce b (setNonce a n d) = getNonce b d.
Proof. intros Hne. unfold getNonce, setNonce. by rewrite lookup_insert_ne. Qed.

Lemma getCode_setNonce a b n (d : Db) :
  getCode b (setNonce a n d) = getCode b d.
Proof.
  unfold getCode, setNonce, getOrNew.
  destruct (decide (a = b)) as [->|Hne].
  - rewrite lookup_insert_eq. by destruct (d !! b).
  - by rewrite lookup_insert_ne.
Qed.

Lemma getNonce_createAccount_eq a (d : Db) :
  getNonce a (createAccount a d) = StartingNonce.
Proof. unfold getNonce, createAccount. by rewrite lookup_insert_eq. Qed.

Lemma getCode_createAccount_eq a (d : Db) :
  getCode a (createAccount a d) = [].
Proof. unfold getCode, createAccount. by rewrite lookup_insert_eq. Qed.

Lemma exist_transferred from to amount (d : Db) :
  exist to (transferred from to amount d) = true.
Proof. unfold transferred, exist, addBalance. by rewrite lookup_insert_eq. Qed.

End Balances.

(** ** The four call variants in one form *)

Section Tail.

Context {ext : Externals}.

Variables (env : Env) (c : Contract) (input : Bytes) (ro : bool).
Variables (s d : Db) (g : Z) (pre : list Event).

Local Abbreviation r := (Vm env d c input ro).

Lemma runAndRevert_eq :
  runAndRevert env c input ro s (mkWorld d g pre)
  = ((rRet r, rErr r),
     mkWorld (match rErr r with None => rDb r | Some _ => s end) g
       (pre ++ EvRun c input ro r :: tailCalls c s r)).
Proof.
  unfold tailCalls.
  destruct (rErr r) as [e|] eqn:He;
    [destruct (decide (e = ErrRevert)) as [->|Hne]|].
  - rewrite (runAndRevert_revert _ _ _ _ _ _ _ _ He).
    by rewrite bool_decide_eq_false_2 by (intros H; by apply H).
  - rewrite (runAndRevert_error _ _ _ _ _ _ _ _ _ He Hne).
    by rewrite bool_decide_eq_true_2.
  - by rewrite (runAndRevert_ok _ _ _ _ _ _ _ _ He).
Qed.

End Tail.

Section TailFacts.

Variables (c : Contract) (s : Db) (r : RunResult).

Lemma tailCalls_finalise :
  List.filter isFinalise (tailCalls c s r)
  = [EvFinalise
       (withGas c (match rErr r with
                   | Some e => if bool_decide (e <> ErrRevert) then 0 else rGas r
                   | None => rGas r
                   end))].
Proof. unfold tailCalls. by repeat case_match. Qed.

Lemma tailCalls_reverts :
  List.filter isRevert (tailCalls c s r)
  = match rErr r with Some _ => [EvRevertToSnapshot s] | None => [] end.
Proof. unfold tailCalls. by repeat case_match. Qed.

Lemma tailCalls_useGas :
  List.filter isUseGas (tailCalls c s r)
  = match rErr r with
    | Some e => if bool_decide (e <> ErrRevert) then [EvUseGas (rGas r) true]
                else []
    | None => []
    end.
Proof. unfold tailCalls. by repeat case_match. Qed.

Lemma tailCalls_no_run : List.filter isRun (tailCalls c s r) = [].
Proof. unfold tailCalls. by repeat case_match. Qed.

Lemma tailCalls_no_returnGas : List.filter isReturnGas (tailCalls c s r) = [].
Proof. unfold tailCalls. by repeat case_match. Qed.

Lemma tailCalls_no_snapshot : List.filter isSnapshot (tailCalls c s r) = [].
Proof. unfold tailCalls. by repeat case_match. Qed.

Lemma tailCalls_no_accountCall :
  List.filter isAccountCall (tailCalls c s r) = [].
Proof. unfold tailCalls. by repeat case_match. Qed.

Lemma tailCalls_last t :
  last (t ++ tailCalls c s r)
  = Some (EvFinalise
       (withGas c (match rErr r with
                   | Some e => if bool_decide (e <> ErrRevert) then 0 else rGas r
                   | None => rGas r
                   end))).
Proof.
  rewrite last_app. unfold tailCalls. by repeat case_match.
Qed.

End TailFacts.

Section Reached.

Context {ext : Externals}.

Variables (env : Env) (caller : ContractRef) (addr : Address).
Variables (input : Bytes) (gas gasPrice value : Z) (d : Db) (g : Z).

Local Abbreviation from := (refAddress caller).

Lemma CallCode_funds :
  Depth env <= callCreateDepthMax ->
  getBalance from d < value ->
  CallCode env caller addr input gas gasPrice value (enter d g)
  = ((None, Some (ValueTransferErr value (getBalance from d))),
     rejectedWorld d g gas gasPrice).
Proof.
  intros Hd Hf. unfold CallCode. rewrite (depth_leb _ Hd).
  unfold bind at 1. by rewrite (funds_short _ _ _ _ Hf).
Qed.

(** Every call variant either leaves at an early exit or goes through the
    shared tail. *)
Lemma callVariant_eq v :
  callVariant v env caller addr input gas gasPrice value (enter d g)
  = match earlyExit env caller addr gas gasPrice value d v with
    | Some (res, t) => (res, mkWorld d (g + gas) t)
    | None =>
        runAndRevert env
          (variantFrame caller addr gas gasPrice value d v) input
          (variantReadOnly v) d
          (mkWorld (variantDb caller addr value d v) g
             (EvSnapshotDatabase d :: variantCalls caller addr value d v))
    end.
Proof.
  unfold earlyExit.
  destruct (Z_le_gt_dec (Depth env) callCreateDepthMax) as [Hd|Hd].
  2:{ rewrite (depth_gtb _ Hd).
      destruct v; cbn [callVariant];
        [ by rewrite Call_depth | by rewrite CallCode_depth
        | by rewrite DelegateCall_depth | by rewrite StaticCall_depth ]. }
  rewrite (depth_leb _ Hd). cbv zeta.
  destruct v; cbn [callVariant variantFrame variantDb variantCalls
                   variantReadOnly].
  - destruct (Z.leb_spec value (getBalance from d)) as [Hf|Hf].
    2:{ by rewrite Call_funds. }
    unfold skips, resolved, resolving. destruct (exist addr d) eqn:Hex.
    + cbn [negb andb app]. by rewrite Call_existing.
    + cbn [negb andb].
      destruct (bool_decide (addr ∉ activePrecompiles env)
                && IsHardfork2 (RuleSet env) (BlockNumber env)
                && (BitLen value =? 0)) eqn:Hskip.
      * by rewrite Call_skipped.
      * by rewrite Call_created.
  - destruct (Z.leb_spec value (getBalance from d)) as [Hf|Hf].
    + by rewrite CallCode_runs.
    + by rewrite CallCode_funds.
  - by rewrite DelegateCall_runs.
  - by rewrite StaticCall_runs.
Qed.

Lemma variantCalls_accountCalls v :
  forallb isAccountCall (variantCalls caller addr value d v) = true.
Proof.
  destruct v; cbn [variantCalls]; rewrite ?forallb_app,
    ?resolving_accountCalls; reflexivity.
Qed.

(** An early exit makes no call but [ReturnGas], after the snapshot when
    the call is dropped. *)
Lemma earlyExit_calls v res t :
  earlyExit env caller addr gas gasPrice value d v = Some (res, t) ->
  t = [EvReturnGas gas gasPrice]
  \/ (t = [EvSnapshotDatabase d; EvReturnGas gas gasPrice]
      /\ v = VCall /\ res = (None, None)).
Proof.
  unfold earlyExit. cbv zeta. intros H.
  repeat case_match; simplify_eq; auto.
Qed.

Lemma skips_iff :
  skips env addr value d = true
  <-> exist addr d = false /\ value = 0 /\ (addr ∉ activePrecompiles env)
      /\ IsHardfork2 (RuleSet env) (BlockNumber env) = true.
Proof.
  unfold skips.
  rewrite !andb_true_iff, negb_true_iff, bool_decide_eq_true, Z.eqb_eq,
    BitLen_zero.
  tauto.
Qed.

Lemma earlyExit_None v :
  earlyExit env caller addr gas gasPrice value d v = None
  <-> Depth env <= callCreateDepthMax
      /\ match v with
         | VCall => value <= getBalance from d
                    /\ skips env addr value d = false
         | VCallCode => value <= getBalance from d
         | VDelegateCall | VStaticCall => True
         end.
Proof.
  unfold earlyExit. cbv zeta.
  destruct (Z_le_gt_dec (Depth env) callCreateDepthMax) as [Hd|Hd].
  2:{ rewrite (depth_gtb _ Hd). split; [done|lia]. }
  rewrite (depth_leb _ Hd).
  destruct v.
  - destruct (Z.leb_spec value (getBalance from d));
      destruct (skips env addr value d); split; try done; try tauto;
      intros (_ & ? & ?); try done; lia.
  - destruct (Z.leb_spec value (getBalance from d)); split; try done.
    intros [_ ?]; lia.
  - tauto.
  - tauto.
Qed.

(** Filtering the calls of a variant that ran the interpreter. *)
Lemma ranVariant_filter (q : Event -> bool) v e1 run tl :
  (forall e, isAccountCall e = true -> q e = false) ->
  List.filter q ((e1 :: variantCalls caller addr value d v) ++ run :: tl)
  = List.filter q [e1] ++ List.filter q [run] ++ List.filter q tl.
Proof.
  intros Hq.
  change ((e1 :: variantCalls caller addr value d v) ++ run :: tl)
    with ([e1] ++ variantCalls caller addr value d v ++ [run] ++ tl).
  rewrite !List.filter_app.
  by rewrite (filter_disjoint _ _ _ Hq (variantCalls_accountCalls v)).
Qed.

(** A call variant that ran the interpreter did not leave early, and ran
    it once, on the frame and the database of the variant. *)
Lemma variant_ran_eq v res w' c i ro r :
  callVariant v env caller addr input gas gasPrice value (enter d g)
  = (res, w') ->
  In (EvRun c i ro r) (trace w') ->
  earlyExit env caller addr gas gasPrice value d v = None
  /\ c = variantFrame caller addr gas gasPrice value d v
  /\ i = input /\ ro = variantReadOnly v
  /\ r = Vm env (variantDb caller addr value d v) c input ro
  /\ res = (rRet r, rErr r)
  /\ w' = mkWorld (match rErr r with None => rDb r | Some _ => d end) g
            ((EvSnapshotDatabase d :: variantCalls caller addr value d v)
             ++ EvRun c i ro r :: tailCalls c d r).
Proof.
  intros Heq Hin. rewrite callVariant_eq in Heq.
  destruct (earlyExit env caller addr gas gasPrice value d v)
    as [[res0 t]|] eqn:E.
  - exfalso. injection Heq as -> <-. cbn [trace] in Hin.
    destruct (earlyExit_calls _ _ _ E) as [->|[-> _]];
      cbn in Hin; intuition discriminate.
  - rewrite runAndRevert_eq in Heq. injection Heq as <- <-.
    cbn [trace] in Hin.
    assert (Hrun : EvRun c i ro r
                   = EvRun (variantFrame caller addr gas gasPrice value d v)
                       input (variantReadOnly v)
                       (Vm env (variantDb caller addr value d v)
                          (variantFrame caller addr gas gasPrice value d v)
                          input (variantReadOnly v))).
    { refine (In_filter_singleton isRun _ _ _ _ Hin eq_refl).
      match goal with
      | |- List.filter _ (?e :: ?x ++ ?y) = _ =>
          change (e :: x ++ y) with ((e :: x) ++ y)
      end.
      rewrite ranVariant_filter by (by intros []).
      by rewrite tailCalls_no_run. }
    by injection Hrun as -> -> -> ->.
Qed.

End Reached.

Lemma filter_none {A} (q p : A -> bool) (l : list A) :
  (forall e, q e = true -> p e = true) ->
  List.filter p l = [] -> List.filter q l = [].
Proof.
  intros Hqp. induction l as [|x l IH]; [done|]. cbn [List.filter].
  destruct (p x) eqn:Hp; [done|]. intros Hl.
  destruct (q x) eqn:Hq; [|by apply IH].
  apply Hqp in Hq. congruence.
Qed.

(** X1.  [Transfer] makes two calls, [SubBalance] on the sender and then
    [AddBalance] on the recipient, with the same amount and without any
    test of the sender's balance.  Every balance afterwards is the one
    before, less the amount for the sender and plus the amount for the
    recipient: between two different accounts the sum of their balances is
    kept, and a transfer of an account to itself changes no balance.
    Nonces and codes are not touched. *)
Theorem Transfer_moves_amount `{ext : Externals}
    (from to : Address) (amount : Z) (w : World) :
  let w' := snd (Transfer from to amount w) in
  trace w' = trace w ++ [EvSubBalance from amount; EvAddBalance to amount]
  /\ callerGas w' = callerGas w
  /\ (forall b,
        getBalance b (db w')
        = getBalance b (db w)
          - (if bool_decide (b = from) then amount else 0)
          + (if bool_decide (b = to) then amount else 0))
  /\ (from <> to ->
      getBalance from (db w') = getBalance from (db w) - amount
      /\ getBalance to (db w') = getBalance to (db w) + amount
      /\ getBalance from (db w') + getBalance to (db w')
         = getBalance from (db w) + getBalance to (db w))
  /\ (from = to -> forall b, getBalance b (db w') = getBalance b (db w))
  /\ (forall b, getNonce b (db w') = getNonce b (db w)
                /\ getCode b (db w') = getCode b (db w)).
Proof.
  cbv zeta. unfold Transfer. mred. rewrite <- app_assoc.
  fold (transferred from to amount (db w)).
  split; [done|]. split; [done|].
  split; [intros b; apply getBalance_transferred|].
  split; [|split].
  - intros Hne. rewrite !getBalance_transferred.
    repeat case_bool_decide; try congruence; lia.
  - intros -> b. rewrite getBalance_transferred.
    case_bool_decide; lia.
  - intros b. by rewrite getNonce_transferred, getCode_transferred.
Qed.

(** X2.  [CallCode] has the funds guard of [Call]: within the depth limit,
    when the balance of the caller is less than the value, it returns a nil
    output and a [ValueTransferErr] with the value and the balance, gives
    all the gas back with [ReturnGas] and makes no other call, although it
    would not have transferred the value. *)
Theorem CallCode_insufficient_funds `{ext : Externals}
    (env : Env) (caller : ContractRef) (addr : Address) (input : Bytes)
    (gas gasPrice value : Z) (d : Db) (g : Z) :
  Depth env <= callCreateDepthMax ->
  getBalance (refAddress caller) d < value ->
  CallCode env caller addr input gas gasPrice value (enter d g)
  = ((None,
      Some (ValueTransferErr value (getBalance (refAddress caller) d))),
     mkWorld d (g + gas) [EvReturnGas gas gasPrice]).
Proof. apply CallCode_funds. Qed.

(** X3.  When the interpreter runs.  A call variant runs the interpreter
    at most once.  [DelegateCall] and [StaticCall] run it exactly when the
    depth is at most 1024; [CallCode] when, besides, the caller's balance
    covers the value; [Call] when, besides both, the call is not dropped
    for a target that is not there (value zero, not an active precompiled
    contract, [IsHardfork2]). *)
Theorem call_variants_run_condition `{ext : Externals}
    (v : Variant) (env : Env) (caller : ContractRef) (addr : Address)
    (input : Bytes) (gas gasPrice value : Z) (d : Db) (g : Z) :
  let w' :=
    snd (callVariant v env caller addr input gas gasPrice value (enter d g)) in
  let within := Depth env <= callCreateDepthMax in
  let funded := value <= getBalance (refAddress caller) d in
  let dropped :=
    exist addr d = false /\ value = 0 /\ (addr ∉ activePrecompiles env)
    /\ IsHardfork2 (RuleSet env) (BlockNumber env) = true in
  (length (List.filter isRun (trace w')) <= 1)%nat
  /\ (List.filter isRun (trace w') <> []
      <-> match v with
          | VCall => within /\ funded /\ ~ dropped
          | VCallCode => within /\ funded
          | VDelegateCall | VStaticCall => within
          end).
Proof.
  cbv zeta. rewrite callVariant_eq.
  pose proof (earlyExit_None env caller addr gas gasPrice value d v) as Hnone.
  pose proof (skips_iff env addr value d) as Hskip.
  destruct (earlyExit env caller addr gas gasPrice value d v)
    as [[res t]|] eqn:E.
  - assert (Hrun : List.filter isRun t = []).
    { by destruct (earlyExit_calls _ _ _ _ _ _ _ _ _ _ E) as [->|[-> _]]. }
    cbn [snd trace]. rewrite Hrun. split; [cbn; lia|].
    split; [done|]. intros H. exfalso.
    assert (Hn : @None (Bytes * option Error * list Event) = None) by done.
    enough (Some (res, t) = None) by done.
    apply Hnone. destruct v; try tauto.
    destruct H as (? & ? & Hdrop). split; [done|]. split; [done|].
    apply not_true_iff_false. by rewrite Hskip.
  - rewrite runAndRevert_eq. cbn [snd trace].
    rewrite ranVariant_filter by (by intros []).
    rewrite tailCalls_no_run. cbn [List.filter isSnapshot isRun app length].
    split; [lia|]. split; [intros _|done].
    destruct (proj1 Hnone eq_refl) as [Hd Hv].
    destruct v; try tauto.
    destruct Hv as [Hf Hs]. split; [done|]. split; [done|].
    rewrite <- Hskip. by rewrite Hs.
Qed.

(** X4.  How a call variant settles the gas.  A call that does not run
    the interpreter gives the gas back with exactly one [ReturnGas], builds
    and finalises no frame, makes no call on an account, reverts nothing and
    leaves the database as it was.  A call that runs the interpreter never
    calls [ReturnGas]: the caller's gas is untouched, the snapshot of the
    database at entry is the only one taken, and the deferred [Finalise] is
    made once, as the last call. *)
Theorem call_variants_gas_settlement `{ext : Externals}
    (v : Variant) (env : Env) (caller : ContractRef) (addr : Address)
    (input : Bytes) (gas gasPrice value : Z) (d : Db) (g : Z) :
  let w' :=
    snd (callVariant v env caller addr input gas gasPrice value (enter d g)) in
  (List.filter isRun (trace w') = [] ->
   List.filter isReturnGas (trace w') = [EvReturnGas gas gasPrice]
   /\ callerGas w' = g + gas
   /\ List.filter isFinalise (trace w') = []
   /\ List.filter isAccountCall (trace w') = []
   /\ List.filter isRevert (trace w') = []
   /\ db w' = d)
  /\ (List.filter isRun (trace w') <> [] ->
      List.filter isReturnGas (trace w') = []
      /\ callerGas w' = g
      /\ List.filter isSnapshot (trace w') = [EvSnapshotDatabase d]
      /\ exists c,
           List.filter isFinalise (trace w') = [EvFinalise c]
           /\ last (trace w') = Some (EvFinalise c)).
Proof.
  cbv zeta. rewrite callVariant_eq.
  destruct (earlyExit env caller addr gas gasPrice value d v)
    as [[res t]|] eqn:E.
  - cbn [snd trace callerGas db].
    destruct (earlyExit_calls _ _ _ _ _ _ _ _ _ _ E) as [->|[-> _]];
      split; try done; by intros [].
  - rewrite runAndRevert_eq. cbn [snd trace callerGas db].
    split.
    { rewrite ranVariant_filter by (by intros []).
      by rewrite tailCalls_no_run. }
    intros _. rewrite !ranVariant_filter by (by intros []).
    rewrite tailCalls_no_returnGas, tailCalls_no_snapshot, tailCalls_finalise.
    cbn [List.filter isSnapshot isRun isReturnGas isFinalise app].
    repeat split.
    eexists. split; [reflexivity|].
    rewrite cons_middle, app_assoc.
    apply (tailCalls_last _ _ _ (_ :: _ ++ [_])).
Qed.

(** X5.  In each of the four call variants, when the interpreter returns
    no error, the call returns the output of the interpreter with no error,
    the database is the one the interpreter left, nothing is reverted, no
    gas is taken from the frame, and the frame is finalised with the gas
    the interpreter left. *)
Theorem call_variants_success `{ext : Externals}
    (v : Variant) (env : Env) (caller : ContractRef) (addr : Address)
    (input : Bytes) (gas gasPrice value : Z) (d : Db) (g : Z)
    (res : Bytes * option Error) (w' : World)
    (c : Contract) (i : Bytes) (ro : bool) (r : RunResult) :
  callVariant v env caller addr input gas gasPrice value (enter d g)
  = (res, w') ->
  In (EvRun c i ro r) (trace w') ->
  rErr r = None ->
  res = (rRet r, None)
  /\ db w' = rDb r
  /\ callerGas w' = g
  /\ List.filter isRevert (trace w') = []
  /\ List.filter isUseGas (trace w') = []
  /\ finalFrame (trace w') = Some (withGas c (rGas r)).
Proof.
  intros Heq Hin He.
  destruct (variant_ran _ _ _ _ _ _ _ _ _ _ _ _ _ _ _ _ Heq Hin)
    as (dIn & pre & Hpre & -> & Htail).
  rewrite (runAndRevert_ok _ _ _ _ _ _ _ _ He) in Htail.
  inversion Htail; subst res w'; clear Htail.
  cbn [trace db callerGas List.filter isSnapshot isRevert isUseGas].
  rewrite !List.filter_app.
  cbn [List.filter isSnapshot isRevert isUseGas].
  rewrite (accountCalls_no_revert _ Hpre), (accountCalls_no_useGas _ Hpre).
  repeat split; try done.
  apply (finalFrame_end (EvSnapshotDatabase d :: pre) [_]).
Qed.

(** X6.  A [Call] that runs the interpreter has moved the value before the
    run: its only [SubBalance] is the one of the value on the caller and its
    only [AddBalance] the one of the value on the target, and in the
    database the interpreter starts on every balance is the one at entry,
    less the value for the caller and plus the value for the target.  The
    caller's balance covered the value, so a caller other than the target is
    left with a balance that is not negative.  The frame is the one of the
    target, with the caller, the value and the gas of the call and the code
    of the target. *)
Theorem Call_transfers_before_run `{ext : Externals}
    (env : Env) (caller : ContractRef) (addr : Address)
    (input : Bytes) (gas gasPrice value : Z) (d : Db) (g : Z)
    (res : Bytes * option Error) (w' : World)
    (c : Contract) (i : Bytes) (ro : bool) (r : RunResult) :
  let from := refAddress caller in
  Call env caller addr input gas gasPrice value (enter d g) = (res, w') ->
  In (EvRun c i ro r) (trace w') ->
  exists dIn,
    r = Vm env dIn c input false /\ i = input /\ ro = false
    /\ List.filter isSubBalance (trace w') = [EvSubBalance from value]
    /\ List.filter isAddBalance (trace w') = [EvAddBalance addr value]
    /\ (forall b,
          getBalance b dIn
          = getBalance b d - (if bool_decide (b = from) then value else 0)
            + (if bool_decide (b = addr) then value else 0))
    /\ value <= getBalance from d
    /\ (from <> addr -> 0 <= getBalance from dIn)
    /\ exist addr dIn = true
    /\ frameSelf c = addr /\ CallerAddress c = from /\ frameValue c = value
    /\ Gas c = gas /\ CodeAddr c = Some addr /\ Code c = getCode addr dIn
    /\ delegate c = false.
Proof.
  cbv zeta. intros Heq Hin.
  destruct (variant_ran_eq _ _ _ _ _ _ _ _ _ VCall _ _ _ _ _ _ Heq Hin)
    as (E & -> & -> & -> & -> & -> & ->).
  clear Heq Hin. apply earlyExit_None in E as (Hd & Hf & Hs).
  exists (variantDb caller addr value d VCall).
  assert (Hbal : forall b,
    getBalance b (variantDb caller addr value d VCall)
    = getBalance b d
      - (if bool_decide (b = refAddress caller) then value else 0)
      + (if bool_decide (b = addr) then value else 0)).
  { intros b. cbn [variantDb].
    by rewrite getBalance_transferred, getBalance_resolved. }
  cbn [variantCalls variantReadOnly trace].
  rewrite !List.filter_app. cbn [List.filter isSubBalance isAddBalance app].
  rewrite !List.filter_app. cbn [List.filter isSubBalance isAddBalance app].
  rewrite (filter_none isSubBalance isAccountCall _ ltac:(by intros [])
             (tailCalls_no_accountCall _ _ _)).
  rewrite (filter_none isAddBalance isAccountCall _ ltac:(by intros [])
             (tailCalls_no_accountCall _ _ _)).
  assert (Hres : forall q, (forall a, q (EvCreateAccount a) = false) ->
                   List.filter q (resolving addr d) = []).
  { intros q Hq. unfold resolving. destruct (exist addr d); [done|].
    cbn [List.filter]. by rewrite Hq. }
  rewrite !Hres by done.
  repeat split; try done.
  - intros Hne. rewrite Hbal.
    repeat case_bool_decide; try congruence; lia.
  - apply exist_transferred.
Qed.

Section MoreDatabase.

Context {ext : Externals}.

Lemma exist_resolved a (d : Db) : exist a (resolved a d) = true.
Proof.
  unfold resolved. destruct (exist a d) eqn:E; [done|].
  apply exist_createAccount.
Qed.

Lemma getNonce_createAccount_ne a b (d : Db) :
  a <> b -> getNonce b (createAccount a d) = getNonce b d.
Proof.
  intros Hne. unfold getNonce, createAccount. by rewrite lookup_insert_ne.
Qed.

Lemma getCodeHash_setCode a c (d : Db) :
  getCodeHash a (setCode a c d) = Keccak256Hash (bytesOf c).
Proof. unfold getCodeHash, setCode. by rewrite lookup_insert_eq. Qed.

End MoreDatabase.

(** X7.  A [CallCode] that runs the interpreter makes no call on any
    account, so it moves no value although the funds guard has tested it:
    the interpreter starts on the database as it was at entry.  The frame is
    the one of the caller's own account, with the caller as its caller, the
    value and the gas of the call, and the code and code hash of the
    address called. *)
Theorem CallCode_runs_in_caller `{ext : Externals}
    (env : Env) (caller : ContractRef) (addr : Address)
    (input : Bytes) (gas gasPrice value : Z) (d : Db) (g : Z)
    (res : Bytes * option Error) (w' : World)
    (c : Contract) (i : Bytes) (ro : bool) (r : RunResult) :
  let from := refAddress caller in
  CallCode env caller addr input gas gasPrice value (enter d g) = (res, w') ->
  In (EvRun c i ro r) (trace w') ->
  r = Vm env d c input false /\ i = input /\ ro = false
  /\ List.filter isAccountCall (trace w') = []
  /\ value <= getBalance from d
  /\ frameSelf c = from /\ CallerAddress c = from /\ frameValue c = value
  /\ Gas c = gas /\ CodeAddr c = Some addr
  /\ Code c = getCode addr d /\ CodeHash c = getCodeHash addr d
  /\ delegate c = false.
Proof.
  cbv zeta. intros Heq Hin.
  destruct (variant_ran_eq _ _ _ _ _ _ _ _ _ VCallCode _ _ _ _ _ _ Heq Hin)
    as (E & -> & -> & -> & -> & -> & ->).
  clear Heq Hin. apply earlyExit_None in E as (Hd & Hf).
  cbn [variantCalls variantReadOnly variantDb trace app List.filter
       isAccountCall].
  rewrite tailCalls_no_accountCall.
  by repeat split.
Qed.

(** X8.  A [DelegateCall] that runs the interpreter has created the
    account of the caller when it was not there, and made no other call on
    an account: no balance changes.  The frame is the one of the caller's
    own account, marked as a delegate, with the value the caller holds
    ([caller.Value()]), the gas of the call and the code of the address
    called. *)
Theorem DelegateCall_runs_as_delegate `{ext : Externals}
    (env : Env) (caller : ContractRef) (addr : Address)
    (input : Bytes) (gas gasPrice : Z) (d : Db) (g : Z)
    (res : Bytes * option Error) (w' : World)
    (c : Contract) (i : Bytes) (ro : bool) (r : RunResult) :
  let from := refAddress caller in
  let dIn := if exist from d then d else createAccount from d in
  DelegateCall env caller addr input gas gasPrice (enter d g) = (res, w') ->
  In (EvRun c i ro r) (trace w') ->
  r = Vm env dIn c input false /\ i = input /\ ro = false
  /\ List.filter isAccountCall (trace w')
     = (if exist from d then [] else [EvCreateAccount from])
  /\ exist from dIn = true
  /\ (forall b, getBalance b dIn = getBalance b d)
  /\ frameSelf c = from /\ frameValue c = refValue caller
  /\ delegate c = true
  /\ Gas c = gas /\ CodeAddr c = Some addr
  /\ Code c = getCode addr dIn /\ CodeHash c = getCodeHash addr dIn.
Proof.
  cbv zeta. intros Heq Hin.
  destruct (variant_ran_eq _ _ _ _ _ _ 0 _ _ VDelegateCall _ _ _ _ _ _ Heq Hin)
    as (E & -> & -> & -> & -> & -> & ->).
  clear Heq Hin.
  cbn [variantCalls variantReadOnly variantDb trace app List.filter
       isAccountCall].
  rewrite List.filter_app. cbn [List.filter isAccountCall].
  rewrite tailCalls_no_accountCall, app_nil_r.
  fold (resolved (refAddress caller) d).
  repeat split; try done.
  - unfold resolving. by destruct (exist _ d).
  - apply exist_resolved.
  - intros b. apply getBalance_resolved.
Qed.

(** ** Create: when the interpreter runs, and what a success means *)

Section CreateFacts.

Context {ext : Externals}.

Variables (env : Env) (caller : ContractRef) (cd : list byte).
Variables (gas gasPrice value : Z) (d : Db) (g : Z).

Local Abbreviation from := (refAddress caller).
Local Abbreviation address := (derived caller d).
Local Abbreviation d1 := (incremented caller d).

Lemma collides_iff :
  collides caller d = true
  <-> getNonce address d1 <> StartingNonce
      \/ (getCodeHash address d1 <> zeroHash
          /\ getCodeHash address d1 <> emptyCodeHash).
Proof.
  unfold collides.
  by rewrite orb_true_iff, andb_true_iff, !bool_decide_eq_true.
Qed.

Lemma Create_ran_guards res w' c i ro r :
  Create env caller cd gas gasPrice value (enter d g) = (res, w') ->
  In (EvRun c i ro r) (trace w') ->
  Depth env <= callCreateDepthMax
  /\ value <= getBalance from d
  /\ collides caller d = false.
Proof.
  intros Heq Hin. create_paths Heq.
  1-3: cbn in Hin; exfalso; intuition discriminate.
  done.
Qed.

(** [Create] past the guards and the collision check. *)
Lemma Create_runs :
  Depth env <= callCreateDepthMax ->
  value <= getBalance from d ->
  collides caller d = false ->
  let r := createRun env caller cd gas gasPrice value d in
  let frame := createFrame caller cd gas gasPrice value d in
  Create env caller cd gas gasPrice value (enter d g)
  = ((outputReturned env r, address, errorReturned env r),
     mkWorld (finished env r address d1) g
       (EvSetNonce from (uint64 (getNonce from d + 1))
        :: EvSnapshotDatabase d1
        :: creating env from address value
        ++ EvRun frame None false r
        :: finishing env r address d1 frame)).
Proof.
  intros Hd Hf Hc. cbv zeta.
  pose proof (Create_path env caller cd gas gasPrice value d g) as P.
  remember (Create env caller cd gas gasPrice value (enter d g)) as X.
  destruct P as [Hx|Hx Hy|Hx Hy Hz|Hx Hy Hz];
    [lia|lia|congruence|reflexivity].
Qed.

End CreateFacts.

Section FinishFacts.

Context {ext : Externals}.

Variables (env : Env) (r : RunResult) (a : Address) (s : Db) (c : Contract).

Lemma finishing_no_accountCall :
  List.filter isAccountCall (finishing env r a s c) = [].
Proof. unfold finishing. by repeat case_match. Qed.

Lemma finishing_finalise :
  List.filter isFinalise (finishing env r a s c)
  = [EvFinalise
       (withGas c (if gasBurnt env r then 0 else gasAfterStore env r))].
Proof. unfold finishing. by repeat case_match. Qed.

Lemma finishing_last t :
  last (t ++ finishing env r a s c)
  = Some (EvFinalise
            (withGas c (if gasBurnt env r then 0 else gasAfterStore env r))).
Proof. unfold finishing. rewrite !app_assoc. apply last_snoc. Qed.

End FinishFacts.

Section MoreDecisions.

Context {ext : Externals}.

Variables (env : Env) (r : RunResult).

(** A code that is too long under [IsHardfork2]. *)
Lemma size_exceeded :
  rErr r = None -> sizeExceeded env r = true ->
  storeAttempted env r = false /\ codeStored env r = false
  /\ revertDecided env r = true /\ gasBurnt env r = true
  /\ gasAfterStore env r = rGas r
  /\ errorReturned env r = Some errMaxCodeSizeExceeded
  /\ outputReturned env r = None.
Proof.
  intros He Hs.
  assert (Ha : storeAttempted env r = false).
  { unfold storeAttempted. rewrite Hs. apply andb_false_r. }
  assert (Hc : codeStored env r = false).
  { unfold codeStored. by rewrite Ha. }
  assert (Hd : errorAtDecision env r = None).
  { rewrite (errorAtDecision_not_attempted _ _ Ha). exact He. }
  assert (Hret : errorReturned env r = Some errMaxCodeSizeExceeded)
    by by apply errorReturned_exceeded.
  repeat split; try done.
  - unfold revertDecided. by rewrite Hs.
  - unfold gasBurnt, revertDecided. rewrite Hs, Hd. by rewrite bd_none_ne_some.
  - unfold gasAfterStore. by rewrite Hc.
  - by apply (outputReturned_error _ _ _ Hret).
Qed.

(** A code of any length that the frame pays for, when the size limit does
    not apply. *)
Lemma store_paid_unlimited :
  rErr r = None -> sizeExceeded env r = false ->
  len (rRet r) * CreateDataGas <= rGas r ->
  storeAttempted env r = true /\ codeStored env r = true
  /\ revertDecided env r = false /\ gasBurnt env r = false
  /\ errorReturned env r = None /\ outputReturned env r = rRet r.
Proof.
  intros He Hs Hg.
  assert (Ha : storeAttempted env r = true).
  { unfold storeAttempted. by rewrite He, Hs, bd_none_eq. }
  assert (Hc : codeStored env r = true).
  { unfold codeStored. rewrite Ha. by apply Z.leb_le. }
  assert (Hd : errorAtDecision env r = None)
    by by apply errorAtDecision_stored.
  assert (Hr : revertDecided env r = false).
  { unfold revertDecided. by rewrite Hs, Hd, bd_none_ne. }
  assert (Hret : errorReturned env r = None).
  { rewrite errorReturned_other; [done|]. rewrite Hs. by intros []. }
  repeat split; try done.
  - unfold gasBurnt. by rewrite Hr.
  - by apply outputReturned_ok.
Qed.

(** No error is returned only when the code was stored. *)
Lemma errorReturned_None :
  errorReturned env r = None ->
  rErr r = None /\ sizeExceeded env r = false
  /\ len (rRet r) * CreateDataGas <= rGas r
  /\ storeAttempted env r = true /\ codeStored env r = true
  /\ revertDecided env r = false /\ gasBurnt env r = false
  /\ outputReturned env r = rRet r.
Proof.
  intros H.
  destruct (rErr r) as [e|] eqn:He.
  { exfalso. revert H. unfold errorReturned.
    rewrite (errorAtDecision_failed _ _ _ He).
    destruct (sizeExceeded env r); cbn [andb]; rewrite ?bd_some_eq; done. }
  destruct (sizeExceeded env r) eqn:Hs.
  { exfalso. destruct (size_exceeded He Hs) as (_ & _ & _ & _ & _ & Hret & _).
    congruence. }
  destruct (Z_lt_le_dec (rGas r) (len (rRet r) * CreateDataGas)) as [Hg|Hg].
  { exfalso.
    assert (Ha : storeAttempted env r = true).
    { unfold storeAttempted. by rewrite He, Hs, bd_none_eq. }
    assert (Hc : codeStored env r = false).
    { unfold codeStored. rewrite Ha. by apply Z.leb_gt. }
    pose proof (errorAtDecision_short _ _ Ha Hc) as Hd.
    rewrite errorReturned_other in H; [congruence|].
    rewrite Hs. by intros []. }
  destruct (store_paid_unlimited He Hs Hg) as (? & ? & ? & ? & ? & ?).
  by repeat split.
Qed.

(** An error of the interpreter other than [CodeStoreOutOfGasError]. *)
Lemma run_failed e :
  rErr r = Some e -> e <> CodeStoreOutOfGasError ->
  storeAttempted env r = false /\ codeStored env r = false
  /\ revertDecided env r = true
  /\ gasBurnt env r = bool_decide (e <> ErrRevert)
  /\ gasAfterStore env r = rGas r
  /\ errorReturned env r = Some e
  /\ outputReturned env r = (if bool_decide (e <> ErrRevert) then None
                             else rRet r).
Proof.
  intros He Hne.
  assert (Ha : storeAttempted env r = false).
  { unfold storeAttempted. by rewrite He, bd_some_eq. }
  assert (Hc : codeStored env r = false).
  { unfold codeStored. by rewrite Ha. }
  assert (Hd : errorAtDecision env r = Some e)
    by by apply errorAtDecision_failed.
  assert (Hret : errorReturned env r = Some e).
  { rewrite errorReturned_other; [done|]. rewrite Hd. by intros []. }
  assert (Hr : revertDecided env r = true)
    by by apply (revertDecided_of_error _ _ _ Hret).
  repeat split; try done.
  - unfold gasBurnt. rewrite Hr, Hd. by rewrite bd_some_ne_some.
  - unfold gasAfterStore. by rewrite Hc.
  - unfold outputReturned. by rewrite Hret, bd_some_ne, bd_some_ne_some.
Qed.

End MoreDecisions.

(** X9.  When the interpreter runs in [Create]: at most once, and exactly
    when the depth is at most 1024, the caller's balance covers the value,
    and the derived address is free when line 246 reads it, after the
    caller's nonce was incremented: its nonce is [StartingNonce] and its
    code hash is the zero hash or the hash of the empty code. *)
Theorem Create_run_condition `{ext : Externals}
    (env : Env) (caller : ContractRef) (cd : list byte)
    (gas gasPrice value : Z) (d : Db) (g : Z) :
  let w' := snd (Create env caller cd gas gasPrice value (enter d g)) in
  let from := refAddress caller in
  let n := getNonce from d in
  let address := CreateAddress from n in
  let d1 := setNonce from (uint64 (n + 1)) d in
  (length (List.filter isRun (trace w')) <= 1)%nat
  /\ (List.filter isRun (trace w') <> []
      <-> Depth env <= callCreateDepthMax
          /\ value <= getBalance from d
          /\ getNonce address d1 = StartingNonce
          /\ (getCodeHash address d1 = zeroHash
              \/ getCodeHash address d1 = emptyCodeHash)).
Proof.
  cbv zeta.
  pose proof (collides_iff caller d) as Hcol.
  unfold derived, incremented in Hcol.
  pose proof (Create_path env caller cd gas gasPrice value d g) as P.
  remember (Create env caller cd gas gasPrice value (enter d g)) as X.
  destruct P as [Hd|Hd Hf|Hd Hf Hc|Hd Hf Hc]; cbn [snd trace].
  - cbn. split; [lia|]. split; [done|lia].
  - cbn. split; [lia|]. split; [done|lia].
  - cbn. split; [lia|]. split; [done|].
    intros (_ & _ & Hn & Hh). apply Hcol in Hc.
    destruct Hc as [Hc|[Hz He]]; [done|]. by destruct Hh.
  - rewrite ranTrace_filter by (by intros []).
    rewrite finishing_no_run. cbn [List.filter isRun app length].
    split; [lia|]. split; [intros _|done].
    split; [done|]. split; [done|].
    apply not_true_iff_false in Hc. rewrite Hcol in Hc.
    destruct (decide (getNonce (CreateAddress (refAddress caller)
                                  (getNonce (refAddress caller) d))
                        (setNonce (refAddress caller)
                           (uint64 (getNonce (refAddress caller) d + 1)) d)
                      = StartingNonce)) as [Hn|Hn]; [|tauto].
    split; [done|].
    destruct (decide (getCodeHash (CreateAddress (refAddress caller)
                                  (getNonce (refAddress caller) d))
                        (setNonce (refAddress caller)
                           (uint64 (getNonce (refAddress caller) d + 1)) d)
                      = zeroHash)) as [Hz|Hz]; [by left|].
    destruct (decide (getCodeHash (CreateAddress (refAddress caller)
                                  (getNonce (refAddress caller) d))
                        (setNonce (refAddress caller)
                           (uint64 (getNonce (refAddress caller) d + 1)) d)
                      = emptyCodeHash)) as [He|He]; [by right|tauto].
Qed.

(** X10.  How [Create] settles the gas.  A [Create] that runs the
    interpreter never calls [ReturnGas] and leaves the caller's gas as it
    was; it takes one snapshot, of the database after the increment of the
    caller's nonce, and makes the deferred [Finalise] once, as its last
    call.  A [Create] that does not run the interpreter takes no snapshot,
    reverts nothing and finalises no frame; it either gives the gas back as
    its only call and leaves the database as it was, or ends at the
    collision check, where the gas is neither given back nor finalised. *)
Theorem Create_gas_settlement `{ext : Externals}
    (env : Env) (caller : ContractRef) (cd : list byte)
    (gas gasPrice value : Z) (d : Db) (g : Z)
    (out : Bytes) (a : Address) (errF : option Error) (w' : World) :
  let from := refAddress caller in
  let next := uint64 (getNonce from d + 1) in
  Create env caller cd gas gasPrice value (enter d g) = ((out, a, errF), w') ->
  (List.filter isRun (trace w') = [] ->
   List.filter isFinalise (trace w') = []
   /\ List.filter isSnapshot (trace w') = []
   /\ List.filter isRevert (trace w') = []
   /\ ((trace w' = [EvReturnGas gas gasPrice]
        /\ callerGas w' = g + gas /\ db w' = d
        /\ errF <> None /\ errF <> Some errContractAddressCollision)
       \/ (trace w' = [EvSetNonce from next]
           /\ callerGas w' = g /\ db w' = setNonce from next d
           /\ errF = Some errContractAddressCollision)))
  /\ (List.filter isRun (trace w') <> [] ->
      List.filter isReturnGas (trace w') = []
      /\ callerGas w' = g
      /\ List.filter isSnapshot (trace w')
         = [EvSnapshotDatabase (setNonce from next d)]
      /\ exists c,
           List.filter isFinalise (trace w') = [EvFinalise c]
           /\ last (trace w') = Some (EvFinalise c)).
Proof.
  cbv zeta. intros Heq. create_paths Heq; cbn [trace callerGas db].
  - split; [intros _|by intros []]. repeat split; try done. by left.
  - split; [intros _|by intros []]. repeat split; try done. by left.
  - split; [intros _|by intros []]. repeat split; try done. by right.
  - split.
    { rewrite ranTrace_filter by (by intros []).
      by rewrite finishing_no_run. }
    intros _. rewrite !ranTrace_filter by (by intros []).
    rewrite finishing_no_returnGas, finishing_no_snapshot, finishing_finalise.
    cbn [List.filter isReturnGas isSnapshot isFinalise app].
    repeat split. eexists. split; [reflexivity|].
    rewrite cons_middle, app_assoc.
    apply (finishing_last _ _ _ _ _ (_ :: _ :: _ ++ [_])).
Qed.

(** X11.  A [Create] that returns no error has run the interpreter, which
    returned no error; the frame has paid the length of the returned code
    times [CreateDataGas], the one gas charge made; the code is stored at
    the derived address, the address returned, and is what the database
    holds there, with its hash; nothing is reverted; the output returned is
    that code; and under [IsHardfork2] the code is not longer than the
    maximum code size. *)
Theorem Create_success_stored `{ext : Externals}
    (env : Env) (caller : ContractRef) (cd : list byte)
    (gas gasPrice value : Z) (d : Db) (g : Z)
    (out : Bytes) (a : Address) (w' : World) :
  Create env caller cd gas gasPrice value (enter d g) = ((out, a, None), w') ->
  exists c r,
    List.filter isRun (trace w') = [EvRun c None false r]
    /\ rErr r = None /\ out = rRet r
    /\ a = CreateAddress (refAddress caller) (getNonce (refAddress caller) d)
    /\ len out * CreateDataGas <= rGas r
    /\ (IsHardfork2 (RuleSet env) (BlockNumber env) = true ->
        len out <= maxCodeSize)
    /\ List.filter isUseGas (trace w')
       = [EvUseGas (len out * CreateDataGas) true]
    /\ List.filter isSetCode (trace w') = [EvSetCode a out]
    /\ List.filter isRevert (trace w') = []
    /\ db w' = setCode a out (rDb r)
    /\ getCode a (db w') = bytesOf out
    /\ getCodeHash a (db w') = Keccak256Hash (bytesOf out)
    /\ finalFrame (trace w')
       = Some (withGas c (rGas r - len out * CreateDataGas)).
Proof.
  intros Heq. create_paths Heq.
  match goal with
  | H : errorReturned _ _ = None |- _ =>
      destruct (errorReturned_None _ _ H)
        as (He & Hs & Hg & Ha & Hc & Hr & Hb & Hout)
  end.
  do 2 eexists. cbn [trace db].
  rewrite !ranTrace_filter by (by intros []).
  rewrite finishing_no_run, finishing_useGas, finishing_setCode,
    finishing_reverts, ranTrace_finalFrame.
  unfold finished, gasAfterStore. rewrite Hout, Ha, Hc, Hr, Hb.
  cbn [List.filter isRun isUseGas isSetCode isRevert app].
  rewrite getCode_setCode, getCodeHash_setCode.
  repeat split; try done.
  intros Hf. revert Hs. unfold sizeExceeded. rewrite Hf, andb_true_r.
  rewrite Z.gtb_ltb. intros Hlt%Z.ltb_ge. exact Hlt.
Qed.

(** X12.  The size limit of [Create].  When the interpreter returns no
    error and a code longer than the maximum code size: under [IsHardfork2]
    nothing is charged for the code and none is stored, the state is
    reverted to the snapshot, all the gas left on the frame is used up, and
    the call returns [errMaxCodeSizeExceeded] with a nil output and the
    derived address.  Without [IsHardfork2] there is no limit: the frame is
    charged for the code, and if it pays, the code is stored and the call
    succeeds. *)
Theorem Create_size_limit `{ext : Externals}
    (env : Env) (caller : ContractRef) (cd : list byte)
    (gas gasPrice value : Z) (d : Db) (g : Z)
    (out : Bytes) (a : Address) (errF : option Error) (w' : World)
    (c : Contract) (i : Bytes) (ro : bool) (r : RunResult) :
  Create env caller cd gas gasPrice value (enter d g) = ((out, a, errF), w') ->
  In (EvRun c i ro r) (trace w') ->
  rErr r = None ->
  maxCodeSize < len (rRet r) ->
  let dataGas := len (rRet r) * CreateDataGas in
  let n := getNonce (refAddress caller) d in
  let address := CreateAddress (refAddress caller) n in
  let snapshot := setNonce (refAddress caller) (uint64 (n + 1)) d in
  (IsHardfork2 (RuleSet env) (BlockNumber env) = true ->
   (out, a, errF) = (None, address, Some errMaxCodeSizeExceeded)
   /\ List.filter isUseGas (trace w') = [EvUseGas (rGas r) true]
   /\ List.filter isSetCode (trace w') = []
   /\ List.filter isRevert (trace w') = [EvRevertToSnapshot snapshot]
   /\ db w' = snapshot
   /\ finalFrame (trace w') = Some (withGas c 0))
  /\ (IsHardfork2 (RuleSet env) (BlockNumber env) = false ->
      dataGas <= rGas r ->
      (out, a, errF) = (rRet r, address, None)
      /\ List.filter isUseGas (trace w') = [EvUseGas dataGas true]
      /\ List.filter isSetCode (trace w') = [EvSetCode address (rRet r)]
      /\ List.filter isRevert (trace w') = []
      /\ db w' = setCode address (rRet r) (rDb r)
      /\ finalFrame (trace w') = Some (withGas c (rGas r - dataGas))).
Proof.
  intros Heq Hin Herr Hlen.
  destruct (Create_ran _ _ _ _ _ _ _ _ _ _ _ _ _ _ Heq Hin)
    as (-> & _ & _ & -> & [= -> -> ->] & ->).
  clear Heq Hin. cbv zeta. cbn [trace db].
  rewrite !ranTrace_filter by (by intros []).
  rewrite finishing_useGas, finishing_setCode, finishing_reverts.
  rewrite ranTrace_finalFrame.
  assert (Hgt : (len (rRet (createRun env caller cd gas gasPrice value d))
                 >? maxCodeSize) = true).
  { rewrite Z.gtb_ltb. by apply Z.ltb_lt. }
  unfold finished. split.
  - intros Hf.
    assert (Hs : sizeExceeded env (createRun env caller cd gas gasPrice value d)
                 = true).
    { unfold sizeExceeded. by rewrite Hgt, Hf. }
    destruct (size_exceeded _ _ Herr Hs) as (-> & -> & -> & -> & -> & -> & ->).
    by repeat split.
  - intros Hf Hgas.
    assert (Hs : sizeExceeded env (createRun env caller cd gas gasPrice value d)
                 = false).
    { unfold sizeExceeded. rewrite Hf. apply andb_false_r. }
    unfold gasAfterStore.
    destruct (store_paid_unlimited _ _ Herr Hs Hgas)
      as (-> & -> & -> & -> & -> & ->).
    by repeat split.
Qed.

(** X13.  In [Create], when the interpreter returns an error other than
    [CodeStoreOutOfGasError], the state is reverted to the snapshot
    whatever the rule set, nothing is charged for a code and none is
    stored, and the call returns that error with the derived address, also
    when the output is longer than the maximum code size.  For [ErrRevert]
    no gas is taken, the frame keeps the gas the interpreter left and the
    output is returned; for any other error all the gas left is used up and
    the output is nil. *)
Theorem Create_interpreter_failure `{ext : Externals}
    (env : Env) (caller : ContractRef) (cd : list byte)
    (gas gasPrice value : Z) (d : Db) (g : Z)
    (out : Bytes) (a : Address) (errF : option Error) (w' : World)
    (c : Contract) (i : Bytes) (ro : bool) (r : RunResult) (e : Error) :
  Create env caller cd gas gasPrice value (enter d g) = ((out, a, errF), w') ->
  In (EvRun c i ro r) (trace w') ->
  rErr r = Some e ->
  e <> CodeStoreOutOfGasError ->
  let n := getNonce (refAddress caller) d in
  let snapshot := setNonce (refAddress caller) (uint64 (n + 1)) d in
  errF = Some e
  /\ a = CreateAddress (refAddress caller) n
  /\ db w' = snapshot
  /\ List.filter isRevert (trace w') = [EvRevertToSnapshot snapshot]
  /\ List.filter isSetCode (trace w') = []
  /\ (e = ErrRevert ->
      out = rRet r
      /\ List.filter isUseGas (trace w') = []
      /\ finalFrame (trace w') = Some (withGas c (rGas r)))
  /\ (e <> ErrRevert ->
      out = None
      /\ List.filter isUseGas (trace w') = [EvUseGas (rGas r) true]
      /\ finalFrame (trace w') = Some (withGas c 0)).
Proof.
  intros Heq Hin Herr Hne.
  destruct (Create_ran _ _ _ _ _ _ _ _ _ _ _ _ _ _ Heq Hin)
    as (-> & _ & _ & -> & [= -> -> ->] & ->).
  clear Heq Hin. cbv zeta. cbn [trace db].
  rewrite !ranTrace_filter by (by intros []).
  rewrite finishing_useGas, finishing_setCode, finishing_reverts.
  rewrite ranTrace_finalFrame. unfold finished.
  destruct (run_failed env _ _ Herr Hne) as (-> & -> & -> & -> & -> & -> & ->).
  cbn [List.filter isUseGas isSetCode isRevert app].
  repeat split; try done.
  - rewrite bool_decide_eq_false_2; [done|]. intros Hn. by apply Hn.
  - rewrite bool_decide_eq_false_2; [done|]. intros Hn. by apply Hn.
  - rewrite bool_decide_eq_false_2; [done|]. intros Hn. by apply Hn.
  - by rewrite bool_decide_eq_true_2.
  - by rewrite bool_decide_eq_true_2.
  - by rewrite bool_decide_eq_true_2.
Qed.

Section CreateDb.

Context {ext : Externals}.

Variables (env : Env) (from address : Address) (value : Z) (d : Db).

Local Abbreviation fork := (IsHardfork2 (RuleSet env) (BlockNumber env)).

Lemma getBalance_createDb b :
  getBalance b (createDb env from address value d)
  = getBalance b d - (if bool_decide (b = from) then value else 0)
    + (if bool_decide (b = address) then value else 0).
Proof.
  unfold createDb. rewrite getBalance_transferred.
  destruct fork; by rewrite ?getBalance_setNonce, getBalance_createAccount.
Qed.

Lemma getNonce_createDb_new :
  getNonce address (createDb env from address value d)
  = if fork then uint64 (StartingNonce + 1) else StartingNonce.
Proof.
  unfold createDb. rewrite getNonce_transferred.
  destruct fork.
  - apply getNonce_setNonce_eq.
  - apply getNonce_createAccount_eq.
Qed.

Lemma getNonce_createDb_other b :
  b <> address ->
  getNonce b (createDb env from address value d) = getNonce b d.
Proof.
  intros Hne. unfold createDb. rewrite getNonce_transferred.
  destruct fork.
  - rewrite getNonce_setNonce_ne by done. by apply getNonce_createAccount_ne.
  - by apply getNonce_createAccount_ne.
Qed.

Lemma getCode_createDb_new :
  getCode address (createDb env from address value d) = [].
Proof.
  unfold createDb. rewrite getCode_transferred.
  destruct fork; by rewrite ?getCode_setNonce, getCode_createAccount_eq.
Qed.

Lemma creating_filter (q : Event -> bool) :
  (forall a n, q (EvSetNonce a n) = false) ->
  List.filter q (creating env from address value)
  = List.filter q [EvCreateAccount address; EvSubBalance from value;
                   EvAddBalance address value].
Proof.
  intros Hq. unfold creating. destruct fork; [|done].
  cbn [List.filter app]. by rewrite Hq.
Qed.

End CreateDb.

(** X14.  The database the init code of [Create] starts on.  The account
    at the derived address has been created, once, and holds no code; its
    nonce is [StartingNonce] plus one under [IsHardfork2] and
    [StartingNonce] otherwise.  The value has been moved with one
    [SubBalance] on the caller and one [AddBalance] on the new account:
    every balance is the one at entry, less the value for the caller and
    plus the value for the new account, so a balance already held at the
    derived address is kept.  A caller other than the new account has its
    nonce incremented by one and a balance that is not negative.  The frame
    carries the init code and its hash, no code address, and a nil input is
    run. *)
Theorem Create_new_account_state `{ext : Externals}
    (env : Env) (caller : ContractRef) (cd : list byte)
    (gas gasPrice value : Z) (d : Db) (g : Z)
    (res : Bytes * Address * option Error) (w' : World)
    (c : Contract) (i : Bytes) (ro : bool) (r : RunResult) :
  let from := refAddress caller in
  let n := getNonce from d in
  let address := CreateAddress from n in
  Create env caller cd gas gasPrice value (enter d g) = (res, w') ->
  In (EvRun c i ro r) (trace w') ->
  exists dIn,
    r = Vm env dIn c None false /\ i = None /\ ro = false
    /\ exist address dIn = true
    /\ getCode address dIn = []
    /\ getNonce address dIn
       = (if IsHardfork2 (RuleSet env) (BlockNumber env)
          then uint64 (StartingNonce + 1) else StartingNonce)
    /\ (forall b,
          getBalance b dIn
          = getBalance b d - (if bool_decide (b = from) then value else 0)
            + (if bool_decide (b = address) then value else 0))
    /\ (from <> address ->
        getNonce from dIn = uint64 (n + 1) /\ 0 <= getBalance from dIn)
    /\ List.filter isCreateAccount (trace w') = [EvCreateAccount address]
    /\ List.filter isSubBalance (trace w') = [EvSubBalance from value]
    /\ List.filter isAddBalance (trace w') = [EvAddBalance address value]
    /\ frameSelf c = address /\ CallerAddress c = from
    /\ frameValue c = value /\ Gas c = gas
    /\ CodeAddr c = None /\ Code c = cd /\ CodeHash c = Keccak256Hash cd.
Proof.
  cbv zeta. intros Heq Hin.
  destruct (Create_ran_guards _ _ _ _ _ _ _ _ _ _ _ _ _ _ Heq Hin)
    as (Hd & Hf & Hc).
  destruct (Create_ran _ _ _ _ _ _ _ _ _ _ _ _ _ _ Heq Hin)
    as (-> & -> & -> & -> & -> & ->).
  clear Heq Hin.
  exists (createDb env (refAddress caller) (derived caller d) value
            (incremented caller d)).
  split; [reflexivity|].
  cbn [trace].
  assert (Hfilter : forall q,
    (forall a n, q (EvSetNonce a n) = false) ->
    (forall s, q (EvSnapshotDatabase s) = false) ->
    (forall c i ro r, q (EvRun c i ro r) = false) ->
    (forall e, q e = true -> isAccountCall e = true) ->
    List.filter q
      (EvSetNonce (refAddress caller)
         (uint64 (getNonce (refAddress caller) d + 1))
       :: EvSnapshotDatabase (incremented caller d)
       :: creating env (refAddress caller) (derived caller d) value
       ++ EvRun (createFrame caller cd gas gasPrice value d) None false
            (createRun env caller cd gas gasPrice value d)
       :: finishing env (createRun env caller cd gas gasPrice value d)
            (derived caller d) (incremented caller d)
            (createFrame caller cd gas gasPrice value d))
    = List.filter q
        [EvCreateAccount (derived caller d);
         EvSubBalance (refAddress caller) value;
         EvAddBalance (derived caller d) value]).
  { intros q Hn Hs Hr Hq. cbn [List.filter]. rewrite Hn, Hs.
    rewrite List.filter_app. cbn [List.filter]. rewrite Hr.
    rewrite (filter_none q isAccountCall _ Hq (finishing_no_accountCall _ _ _ _ _)).
    rewrite app_nil_r. by apply creating_filter. }
  rewrite !Hfilter by (by intros []).
  rewrite getNonce_createDb_new, getCode_createDb_new.
  unfold incremented.
  repeat split; try done.
  - unfold createDb. apply exist_transferred.
  - intros b. rewrite getBalance_createDb. by rewrite getBalance_setNonce.
  - rewrite getNonce_createDb_other by done. apply getNonce_setNonce_eq.
  - rewrite getBalance_createDb, getBalance_setNonce. unfold derived.
    repeat case_bool_decide; try congruence; lia.
Qed.


(** ** The dispatcher on concrete inputs *)

Import Demo Scenario.

Ltac find_in := repeat first [left; reflexivity | right].

(** Under the homestead rules a creation that cannot pay for its code is
    reverted and returns [CodeStoreOutOfGasError]. *)
Lemma Create_revert_decision_witness :
  In (EvRun shortFrame None false shortRun) (trace (snd shortCreate))
  /\ existsb isRevert (trace (snd shortCreate)) = true
  /\ snd (fst shortCreate) = Some CodeStoreOutOfGasError.
Proof.
  assert (Hin : In (EvRun shortFrame None false shortRun)
                   (trace (snd shortCreate))) by (vm_compute; find_in).
  assert (Heq : shortCreate
                = ((fst (fst (fst shortCreate)), snd (fst (fst shortCreate)),
                    snd (fst shortCreate)), snd shortCreate))
    by (vm_compute; reflexivity).
  destruct (Create_revert_decision (ext := demoExt) _ _ _ _ _ _ _ _ _ _ _ _
              _ _ _ _ Heq Hin) as (Hrev & _ & Herr).
  split; [exact Hin|]. split.
  - apply Hrev. right. vm_compute. split; [discriminate|by left].
  - rewrite Herr; [reflexivity|]. vm_compute. intros [? _]. discriminate.
Defined.

(** C1 as stated fails when the hard fork it names is the one that adjusts
    the nonce, [IsHardfork2]: under the homestead rules, with [IsHardfork2]
    not active, a creation that cannot pay for its code is reverted, though
    the size is not exceeded and the error is [CodeStoreOutOfGasError]. *)
Lemma Create_revert_decision_counterexample :
  let exceeded :=
    (len (rRet shortRun) >? maxCodeSize)
    && IsHardfork2 (RuleSet envOk) (BlockNumber envOk) in
  let err := errorAtDecision (ext := demoExt) envOk shortRun in
  In (EvRun shortFrame None false shortRun) (trace (snd shortCreate))
  /\ IsHomestead (RuleSet envOk) (BlockNumber envOk) = true
  /\ IsHardfork2 (RuleSet envOk) (BlockNumber envOk) = false
  /\ err = Some CodeStoreOutOfGasError
  /\ ~ (existsb isRevert (trace (snd shortCreate)) = true
        <-> exceeded = true
            \/ (err <> None
                /\ (IsHardfork2 (RuleSet envOk) (BlockNumber envOk) = true
                    \/ err <> Some CodeStoreOutOfGasError))).
Proof.
  split; [vm_compute; find_in|].
  split; [reflexivity|]. split; [reflexivity|]. split; [reflexivity|].
  vm_compute. intros [H _].
  destruct (H eq_refl) as [Hx|[_ [Hx|Hx]]]; try discriminate.
  by apply Hx.
Qed.

(** Under the later hard fork a call without value of account 200, which
    is not there and is no precompiled contract, gives the gas back and
    changes nothing. *)
Lemma Call_absent_target_witness :
  exist 200%N demoDb = false
  /\ skippedCall
     = ((None, None),
        mkWorld demoDb 100 [EvSnapshotDatabase demoDb; EvReturnGas 100 1]).
Proof.
  split; [reflexivity|].
  refine (proj1 (Call_absent_target (ext := demoExt) envFork alice 200%N None
                   100 1 0 demoDb 0 _ _ _) _).
  - vm_compute. discriminate.
  - vm_compute. discriminate.
  - reflexivity.
  - split; [reflexivity|]. split; [|reflexivity].
    apply (bool_decide_unpack _). vm_compute. exact I.
Defined.

(** C2 as stated fails at the guards.  At depth 1025 the call of the absent
    account 200, without value and under the later hard fork, returns
    [errCallCreateDepth], not a nil error.  At depth 0 a call of it with a
    value of 60, of which account 100 has 50, is another case of an absent
    target, and creates no account. *)
Lemma Call_absent_target_counterexample :
  (exist 200%N demoDb = false
   /\ (200%N ∉ activePrecompiles (ext := demoExt) envDeep)
   /\ IsHardfork2 (RuleSet envDeep) (BlockNumber envDeep) = true
   /\ fst deepCall = (None, Some errCallCreateDepth)
   /\ snd (fst deepCall) <> None)
  /\ (exist 200%N demoDb = false
      /\ fst brokeCall = (None, Some (ValueTransferErr 60 50))
      /\ exist 200%N (db (snd brokeCall)) = false
      /\ List.filter isCreateAccount (trace (snd brokeCall)) = []).
Proof.
  split; [split; [|split; [|split; [|split]]]|split; [|split; [|split]]].
  - reflexivity.
  - apply (bool_decide_unpack _). vm_compute. exact I.
  - reflexivity.
  - vm_compute. reflexivity.
  - vm_compute. discriminate.
  - reflexivity.
  - vm_compute. reflexivity.
  - vm_compute. reflexivity.
  - vm_compute. reflexivity.
Qed.

(** A static call whose interpreter run fails leaves the database as it
    was and a frame without gas, and returns what the interpreter
    returned. *)
Lemma call_variants_revert_on_error_witness :
  In (EvRun staticFrame None true staticRun) (trace (snd failedStatic))
  /\ rErr staticRun = Some (OtherError 1)
  /\ db (snd failedStatic) = demoDb
  /\ finalFrame (trace (snd failedStatic)) = Some (withGas staticFrame 0)
  /\ fst failedStatic = (Some [x03], Some (OtherError 1)).
Proof.
  assert (Hin : In (EvRun staticFrame None true staticRun)
                   (trace (snd failedStatic))) by (vm_compute; find_in).
  assert (Herr : rErr staticRun = Some (OtherError 1)) by reflexivity.
  assert (Heq : failedStatic = (fst failedStatic, snd failedStatic))
    by (vm_compute; reflexivity).
  destruct (call_variants_revert_on_error (ext := demoExt) _ _ _ _ _ _ _ _ _
              _ _ _ _ _ _ _ _ Heq Hin Herr)
    as (Hres & _ & _ & Hdb & Hburn & _).
  destruct (Hburn ltac:(discriminate)) as [_ Hfin].
  split; [exact Hin|]. split; [exact Herr|]. split; [exact Hdb|].
  split; [exact Hfin|]. exact Hres.
Defined.

(** A creation by account 100, whose nonce is 7: the address is the one
    derived from 100 and 7, and the nonce ends at 8. *)
Lemma Create_nonce_increment_witness :
  Depth envOk <= callCreateDepthMax
  /\ 5 <= getBalance 100%N demoDb
  /\ snd (fst (fst paidCreate))
     = CreateAddress (Externals := demoExt) 100%N 7%N
  /\ (exists tl, trace (snd paidCreate) = EvSetNonce 100%N 8%N :: tl)
  /\ getNonce (ext := demoExt) 100%N (db (snd paidCreate)) = 8%N.
Proof.
  assert (Hd : Depth envOk <= callCreateDepthMax)
    by (vm_compute; discriminate).
  assert (Hf : 5 <= getBalance (refAddress alice) demoDb)
    by (vm_compute; discriminate).
  assert (Heq : paidCreate
                = ((fst (fst (fst paidCreate)), snd (fst (fst paidCreate)),
                    snd (fst paidCreate)), snd paidCreate))
    by (vm_compute; reflexivity).
  destruct (Create_nonce_increment (ext := demoExt) envOk alice [x00] 1000 1 5
              demoDb 0 _ _ _ _ Hd Hf Heq)
    as (Ha & Htl & _ & _ & _ & _ & Hkeep).
  split; [exact Hd|]. split; [exact Hf|]. split; [|split].
  - destruct Ha as [Ha|(_ & Ha & _)]; [exact Ha|discriminate Ha].
  - exact Htl.
  - refine (eq_trans (Hkeep paidFrame None false paidRun _ _) _).
    + vm_compute. find_in.
    + vm_compute. reflexivity.
    + vm_compute. reflexivity.
Defined.

(** C4 as stated fails when the interpreter run itself changes the nonce
    of the caller: the creation passes the guards and succeeds, the nonce
    of account 100 was 7 and is 9 afterwards, not 8. *)
Lemma Create_nonce_increment_counterexample :
  Depth envReentrant <= callCreateDepthMax
  /\ 5 <= getBalance 100%N demoDb
  /\ snd (fst reentrantCreate) = None
  /\ getNonce (ext := demoExt) 100%N demoDb = 7%N
  /\ getNonce (ext := demoExt) 100%N (db (snd reentrantCreate)) = 9%N
  /\ getNonce (ext := demoExt) 100%N (db (snd reentrantCreate))
     <> (getNonce (ext := demoExt) 100%N demoDb + 1)%N.
Proof.
  split; [|split; [|split; [|split; [|split]]]].
  - vm_compute. discriminate.
  - vm_compute. discriminate.
  - reflexivity.
  - reflexivity.
  - vm_compute. reflexivity.
  - vm_compute. discriminate.
Qed.

(** A creation onto a taken address at depth 0: the collision is reported,
    the nonce increment is the only change, and account 100 keeps its 50. *)
Lemma Create_collision_no_transfer_witness :
  getNonce (ext := demoExt) taken takenDb
  <> StartingNonce (Externals := demoExt)
  /\ collidingCreate
     = ((None, zeroAddress, Some errContractAddressCollision),
        mkWorld (setNonce (ext := demoExt) 100%N 8%N takenDb) 0
                [EvSetNonce 100%N 8%N])
  /\ getBalance 100%N (setNonce (ext := demoExt) 100%N 8%N takenDb) = 50.
Proof.
  split; [vm_compute; discriminate|].
  destruct (Create_collision_no_transfer (ext := demoExt) envOk alice [x00]
              1000 1 5 takenDb 0 ltac:(vm_compute; discriminate)
              ltac:(vm_compute; discriminate)
              ltac:(left; vm_compute; discriminate)) as [Heq Hbal].
  split; [exact Heq|]. exact (Hbal 100%N).
Defined.

(** C5 as stated fails at the guards: at depth 1025 the creation onto the
    taken address returns [errCallCreateDepth]. *)
Lemma Create_collision_no_transfer_counterexample :
  derived (ext := demoExt) alice takenDb = taken
  /\ getNonce (ext := demoExt) taken takenDb
     <> StartingNonce (Externals := demoExt)
  /\ fst deepCollidingCreate = (None, zeroAddress, Some errCallCreateDepth)
  /\ snd (fst deepCollidingCreate) <> Some errContractAddressCollision.
Proof.
  split; [reflexivity|]. split; [vm_compute; discriminate|].
  split; [reflexivity|]. vm_compute. discriminate.
Qed.

(** A creation with 1000 gas pays 400 for its two bytes of code, which end
    up as the code of the new account. *)
Lemma Create_code_storage_witness :
  In (EvRun paidFrame None false paidRun) (trace (snd paidCreate))
  /\ rErr paidRun = None
  /\ getCode taken (db (snd paidCreate)) = [x01; x02]
  /\ List.filter isUseGas (trace (snd paidCreate)) = [EvUseGas 400 true]
  /\ fst paidCreate = (Some [x01; x02], taken, None).
Proof.
  assert (Hin : In (EvRun paidFrame None false paidRun)
                   (trace (snd paidCreate))) by (vm_compute; find_in).
  assert (Heq : paidCreate
                = ((fst (fst (fst paidCreate)), snd (fst (fst paidCreate)),
                    snd (fst paidCreate)), snd paidCreate))
    by (vm_compute; reflexivity).
  destruct (Create_code_storage (ext := demoExt) _ _ _ _ _ _ _ _ _ _ _ _
              _ _ _ _ Heq Hin eq_refl ltac:(vm_compute; discriminate))
    as [Hpaid _].
  destruct (Hpaid ltac:(vm_compute; discriminate))
    as (Huse & _ & _ & _ & Hcode & _ & Hres).
  split; [exact Hin|]. split; [reflexivity|]. split; [exact Hcode|].
  split; [exact Huse|]. rewrite Heq. exact Hres.
Defined.

(** A creation whose interpreter run fails returns no output, and the
    derived address with the error. *)
Lemma Create_error_result_witness :
  fst failedCreate = (None, taken, Some (OtherError 1)).
Proof.
  assert (Heq : failedCreate
                = ((fst (fst (fst failedCreate)),
                    snd (fst (fst failedCreate)),
                    snd (fst failedCreate)), snd failedCreate))
    by (vm_compute; reflexivity).
  destruct (Create_error_result (ext := demoExt) _ _ _ _ _ _ _ _ _ _ _ _ Heq)
    as (Hout & _ & Haddr & _).
  rewrite Heq. cbn [fst].
  rewrite (Hout (OtherError 1) eq_refl ltac:(discriminate)).
  rewrite Haddr; [reflexivity|]. vm_compute. discriminate.
Defined.

(** C7 as stated fails after the interpreter ran: the creation ends with an
    error that is not [ErrRevert] and returns the derived address, not the
    zero address. *)
Lemma Create_error_result_counterexample :
  fst failedCreate = (None, taken, Some (OtherError 1))
  /\ OtherError 1 <> ErrRevert
  /\ snd (fst (fst failedCreate)) <> zeroAddress.
Proof.
  split; [reflexivity|]. split; [discriminate|]. vm_compute. discriminate.
Qed.

(** A creation at depth 1025, and a call with a value of 60 by account 100,
    which has 50. *)
Lemma guards_reject_witness :
  Depth envDeep > callCreateDepthMax
  /\ Create (ext := demoExt) envDeep alice [x00] 1000 1 5 (enter demoDb 0)
     = ((None, zeroAddress, Some errCallCreateDepth),
        mkWorld demoDb 1000 [EvReturnGas 1000 1])
  /\ getBalance 100%N demoDb < 60
  /\ brokeCall
     = ((None, Some (ValueTransferErr 60 50)),
        mkWorld demoDb 100 [EvReturnGas 100 1]).
Proof.
  assert (Hd : Depth envDeep > callCreateDepthMax) by reflexivity.
  assert (Hf : getBalance (refAddress alice) demoDb < 60) by reflexivity.
  split; [exact Hd|]. split; [|split; [exact Hf|]].
  - apply (proj1 (guards_reject (ext := demoExt) envDeep alice 200%N None
                    [x00] 1000 1 5 demoDb 0) Hd).
  - apply (proj2 (guards_reject (ext := demoExt) envOk alice 200%N None
                    [x00] 100 1 60 demoDb 0)); [|exact Hf].
    vm_compute. discriminate.
Defined.

(** A static call of account 200, which is not there: snapshot, account
    creation, the touch, and a read-only run on a frame without value. *)
Lemma StaticCall_touches_and_runs_readonly_witness :
  Depth envOk <= callCreateDepthMax
  /\ exists frame tl,
       trace (snd (StaticCall (ext := demoExt) envOk alice 200%N None 100 1
                     (enter demoDb 0)))
       = EvSnapshotDatabase demoDb :: EvCreateAccount 200%N
         :: EvAddBalance 200%N 0
         :: EvRun frame None true
              (okVm (addBalance (ext := demoExt) 200%N 0
                       (createAccount (ext := demoExt) 200%N demoDb))
                    frame None true)
         :: tl
       /\ frameValue frame = 0.
Proof.
  assert (Hd : Depth envOk <= callCreateDepthMax)
    by (vm_compute; discriminate).
  split; [exact Hd|].
  destruct (StaticCall_touches_and_runs_readonly (ext := demoExt) envOk alice
              200%N None 100 1 demoDb 0 Hd)
    as (frame & tl & Htrace & _ & Hvalue & _).
  exists frame, tl. split; [exact Htrace|exact Hvalue].
Defined.

(** A creation onto a taken address: no gas comes back, and the nonce of
    account 100 goes from 7 to 8. *)
Lemma Create_collision_keeps_gas_witness :
  snd (fst collidingCreate) = Some errContractAddressCollision
  /\ List.filter isReturnGas (trace (snd collidingCreate)) = []
  /\ callerGas (snd collidingCreate) = 0
  /\ getNonce (ext := demoExt) 100%N (db (snd collidingCreate)) = 8%N.
Proof.
  assert (Heq : collidingCreate
                = ((fst (fst (fst collidingCreate)),
                    snd (fst (fst collidingCreate)),
                    Some errContractAddressCollision), snd collidingCreate))
    by (vm_compute; reflexivity).
  destruct (Create_collision_keeps_gas (ext := demoExt) _ _ _ _ _ _ _ _ _ _ _
              Heq) as (Hgas & Hcaller & Hnonce & _).
  split; [reflexivity|]. split; [exact Hgas|].
  split; [exact Hcaller|exact Hnonce].
Defined.

(** ** More of the dispatcher on concrete inputs *)

Import Cases.

Lemma In_ran {A} (x e1 e2 : A) (l fin : list A) :
  In x (e1 :: e2 :: l ++ x :: fin).
Proof. right. right. apply in_or_app. right. by left. Qed.

(** A transfer of 5 from account 100, which holds 50, to account 200. *)
Lemma Transfer_moves_amount_witness :
  let w' := snd (Transfer (ext := demoExt) 100%N 200%N 5 (enter demoDb 0)) in
  100%N <> 200%N
  /\ getBalance 100%N (db w') = 45
  /\ getBalance 200%N (db w') = 5.
Proof.
  cbv zeta.
  destruct (Transfer_moves_amount (ext := demoExt) 100%N 200%N 5
              (enter demoDb 0)) as (_ & _ & _ & Hne & _).
  assert (Hd : 100%N <> 200%N) by discriminate.
  destruct (Hne Hd) as (H1 & H2 & _).
  split; [exact Hd|].
  split; [exact (eq_trans H1 eq_refl)|exact (eq_trans H2 eq_refl)].
Defined.

(** A [CallCode] with a value of 60, of which account 100 has 50. *)
Lemma CallCode_insufficient_funds_witness :
  CallCode envOk alice 200%N None 100 1 60 (enter demoDb 0)
  = ((None, Some (ValueTransferErr 60 50)),
     mkWorld demoDb 100 [EvReturnGas 100 1]).
Proof.
  refine (eq_trans (CallCode_insufficient_funds (ext := demoExt) envOk alice
                      200%N None 100 1 60 demoDb 0 _ _) _).
  - vm_compute. discriminate.
  - vm_compute. reflexivity.
  - reflexivity.
Defined.

(** At depth 1024 a static call still runs the interpreter. *)
Lemma call_variants_run_condition_witness :
  Depth envEdge = callCreateDepthMax
  /\ List.filter isRun
       (trace (snd (callVariant (ext := demoExt) VStaticCall envEdge alice
                      200%N None 100 1 0 (enter demoDb 0)))) <> [].
Proof.
  split; [reflexivity|].
  apply (proj2 (proj2 (call_variants_run_condition (ext := demoExt)
                         VStaticCall envEdge alice 200%N None 100 1 0
                         demoDb 0))).
  vm_compute. discriminate.
Defined.

(** At depth 1025 a delegate call gives the 100 gas back. *)
Lemma call_variants_gas_settlement_witness :
  let w' := snd (callVariant (ext := demoExt) VDelegateCall envDeep alice
                   200%N None 100 1 0 (enter demoDb 0)) in
  List.filter isRun (trace w') = []
  /\ callerGas w' = 100
  /\ db w' = demoDb.
Proof.
  cbv zeta.
  assert (Hno : List.filter isRun
                  (trace (snd (callVariant (ext := demoExt) VDelegateCall
                                 envDeep alice 200%N None 100 1 0
                                 (enter demoDb 0)))) = [])
    by (vm_compute; reflexivity).
  destruct (proj1 (call_variants_gas_settlement (ext := demoExt)
                     VDelegateCall envDeep alice 200%N None 100 1 0
                     demoDb 0) Hno) as (_ & Hg & _ & _ & _ & Hdb).
  split; [exact Hno|]. split; [exact Hg|exact Hdb].
Defined.

(** A call of account 200 with a value of 5 succeeds. *)
Lemma call_variants_success_witness :
  In (EvRun callFrame None false callRun) (trace (snd paidCall))
  /\ rErr callRun = None
  /\ fst paidCall = (Some [x01; x02], None)
  /\ List.filter isRevert (trace (snd paidCall)) = [].
Proof.
  assert (Hin : In (EvRun callFrame None false callRun)
                   (trace (snd paidCall))) by (vm_compute; find_in).
  assert (Heq : callVariant (ext := demoExt) VCall envOk alice 200%N None
                  100 1 5 (enter demoDb 0)
                = (fst paidCall, snd paidCall)) by (vm_compute; reflexivity).
  destruct (call_variants_success (ext := demoExt) _ _ _ _ _ _ _ _ _ _ _ _
              _ _ _ _ Heq Hin eq_refl) as (Hres & _ & _ & Hrev & _).
  split; [exact Hin|]. split; [reflexivity|].
  split; [exact (eq_trans Hres eq_refl)|exact Hrev].
Defined.

(** The call of account 200 moves the value of 5 before the run. *)
Lemma Call_transfers_before_run_witness :
  In (EvRun callFrame None false callRun) (trace (snd paidCall))
  /\ List.filter isSubBalance (trace (snd paidCall)) = [EvSubBalance 100%N 5]
  /\ List.filter isAddBalance (trace (snd paidCall)) = [EvAddBalance 200%N 5]
  /\ frameSelf callFrame = 200%N.
Proof.
  assert (Hin : In (EvRun callFrame None false callRun)
                   (trace (snd paidCall))) by (vm_compute; find_in).
  assert (Heq : paidCall = (fst paidCall, snd paidCall))
    by (vm_compute; reflexivity).
  destruct (Call_transfers_before_run (ext := demoExt) _ _ _ _ _ _ _ _ _ _ _
              _ _ _ _ Heq Hin)
    as (dIn & _ & _ & _ & Hsub & Hadd & _ & _ & _ & _ & Hself & _).
  split; [exact Hin|]. split; [exact Hsub|]. split; [exact Hadd|exact Hself].
Defined.

(** A [CallCode] of account 200 with a value of 5 moves nothing and runs
    in the account of the caller. *)
Lemma CallCode_runs_in_caller_witness :
  In (EvRun codeFrame None false codeRun) (trace (snd codeCall))
  /\ List.filter isAccountCall (trace (snd codeCall)) = []
  /\ frameSelf codeFrame = 100%N
  /\ CodeAddr codeFrame = Some 200%N.
Proof.
  assert (Hin : In (EvRun codeFrame None false codeRun)
                   (trace (snd codeCall))) by (vm_compute; find_in).
  assert (Heq : codeCall = (fst codeCall, snd codeCall))
    by (vm_compute; reflexivity).
  destruct (CallCode_runs_in_caller (ext := demoExt) _ _ _ _ _ _ _ _ _ _ _
              _ _ _ _ Heq Hin)
    as (_ & _ & _ & Hcalls & _ & Hself & _ & _ & _ & Haddr & _).
  split; [exact Hin|]. split; [exact Hcalls|].
  split; [exact Hself|exact Haddr].
Defined.

(** A [DelegateCall] of account 200 from account 100, which is there. *)
Lemma DelegateCall_runs_as_delegate_witness :
  In (EvRun delegateFrame None false delegateRun) (trace (snd delegateCall))
  /\ List.filter isAccountCall (trace (snd delegateCall)) = []
  /\ frameSelf delegateFrame = 100%N
  /\ delegate delegateFrame = true.
Proof.
  assert (Hin : In (EvRun delegateFrame None false delegateRun)
                   (trace (snd delegateCall))) by (vm_compute; find_in).
  assert (Heq : delegateCall = (fst delegateCall, snd delegateCall))
    by (vm_compute; reflexivity).
  destruct (DelegateCall_runs_as_delegate (ext := demoExt) _ _ _ _ _ _ _ _
              _ _ _ _ _ _ Heq Hin)
    as (_ & _ & _ & Hcalls & _ & _ & Hself & _ & Hdel & _).
  split; [exact Hin|]. split; [exact Hcalls|].
  split; [exact Hself|exact Hdel].
Defined.

(** The creation from account 100 at depth 0 runs the interpreter. *)
Lemma Create_run_condition_witness :
  List.filter isRun (trace (snd paidCreate)) <> [].
Proof.
  apply (proj2 (proj2 (Create_run_condition (ext := demoExt) envOk alice
                         [x00] 1000 1 5 demoDb 0))).
  vm_compute.
  split; [discriminate|]. split; [discriminate|].
  split; [reflexivity|]. left. reflexivity.
Defined.

(** The creation that pays for its code never gives gas back. *)
Lemma Create_gas_settlement_witness :
  List.filter isRun (trace (snd paidCreate)) <> []
  /\ List.filter isReturnGas (trace (snd paidCreate)) = []
  /\ callerGas (snd paidCreate) = 0.
Proof.
  assert (Heq : paidCreate
                = ((fst (fst (fst paidCreate)), snd (fst (fst paidCreate)),
                    snd (fst paidCreate)), snd paidCreate))
    by (vm_compute; reflexivity).
  assert (Hran : List.filter isRun (trace (snd paidCreate)) <> [])
    by (vm_compute; discriminate).
  destruct (proj2 (Create_gas_settlement (ext := demoExt) _ _ _ _ _ _ _ _ _
                     _ _ _ Heq) Hran) as (Hgas & Hg & _).
  split; [exact Hran|]. split; [exact Hgas|exact Hg].
Defined.

(** The creation that pays for its code has stored it. *)
Lemma Create_success_stored_witness :
  snd (fst paidCreate) = None
  /\ getCode (snd (fst (fst paidCreate))) (db (snd paidCreate)) = [x01; x02].
Proof.
  assert (Heq : paidCreate
                = ((fst (fst (fst paidCreate)), snd (fst (fst paidCreate)),
                    None), snd paidCreate))
    by (vm_compute; reflexivity).
  destruct (Create_success_stored (ext := demoExt) _ _ _ _ _ _ _ _ _ _ _ Heq)
    as (c & r & _ & _ & _ & _ & _ & _ & _ & _ & _ & _ & Hcode & _).
  split; [reflexivity|]. exact (eq_trans Hcode eq_refl).
Defined.

(** Under the later hard fork a creation that returns a code one byte
    longer than the maximum code size ends with [errMaxCodeSizeExceeded]
    and stores nothing. *)
Lemma Create_size_limit_witness :
  In (EvRun paidFrame None false longRun) (trace (snd longCreate))
  /\ maxCodeSize < len (rRet longRun)
  /\ (fst (fst (fst longCreate)), snd (fst (fst longCreate)),
      snd (fst longCreate))
     = (None, taken, Some errMaxCodeSizeExceeded)
  /\ List.filter isSetCode (trace (snd longCreate)) = [].
Proof.
  assert (Hd : Depth envLong <= callCreateDepthMax)
    by (vm_compute; discriminate).
  assert (Hf : 5 <= getBalance (refAddress alice) demoDb)
    by (vm_compute; discriminate).
  assert (Hc : collides (ext := demoExt) alice demoDb = false)
    by (vm_compute; reflexivity).
  pose proof (Create_runs (ext := demoExt) envLong alice [x00] 1000 1 5
                demoDb 0 Hd Hf Hc) as Hrun.
  cbv zeta in Hrun. fold longCreate in Hrun.
  assert (Hin : In (EvRun paidFrame None false longRun)
                   (trace (snd longCreate))).
  { rewrite Hrun. apply In_ran. }
  assert (Heq : longCreate
                = ((fst (fst (fst longCreate)), snd (fst (fst longCreate)),
                    snd (fst longCreate)), snd longCreate)).
  { generalize longCreate. by intros [[[? ?] ?] ?]. }
  assert (Hlen : maxCodeSize < len (rRet longRun))
    by (vm_compute; reflexivity).
  destruct (proj1 (Create_size_limit (ext := demoExt) _ _ _ _ _ _ _ _ _ _ _
                     _ _ _ _ _ Heq Hin eq_refl Hlen) eq_refl)
    as (Hres & _ & Hcode & _).
  split; [exact Hin|]. split; [exact Hlen|].
  split; [exact Hres|exact Hcode].
Defined.

(** A creation whose interpreter run fails is reverted and loses its
    gas. *)
Lemma Create_interpreter_failure_witness :
  In (EvRun paidFrame None false failedRun) (trace (snd failedCreate))
  /\ rErr failedRun = Some (OtherError 1)
  /\ snd (fst failedCreate) = Some (OtherError 1)
  /\ finalFrame (trace (snd failedCreate)) = Some (withGas paidFrame 0).
Proof.
  assert (Hin : In (EvRun paidFrame None false failedRun)
                   (trace (snd failedCreate))) by (vm_compute; find_in).
  assert (Heq : failedCreate
                = ((fst (fst (fst failedCreate)),
                    snd (fst (fst failedCreate)),
                    snd (fst failedCreate)), snd failedCreate))
    by (vm_compute; reflexivity).
  assert (Hne : OtherError 1 <> CodeStoreOutOfGasError) by discriminate.
  assert (Hnr : OtherError 1 <> ErrRevert) by discriminate.
  destruct (Create_interpreter_failure (ext := demoExt) _ _ _ _ _ _ _ _ _ _
              _ _ _ _ _ _ _ Heq Hin eq_refl Hne)
    as (Herr & _ & _ & _ & _ & _ & Hburn).
  destruct (Hburn Hnr) as (_ & _ & Hfin).
  split; [exact Hin|]. split; [reflexivity|].
  split; [exact Herr|exact Hfin].
Defined.

(** The creation from account 100 starts its init code on a database in
    which the new account holds the value of 5 and no code. *)
Lemma Create_new_account_state_witness :
  In (EvRun paidFrame None false paidRun) (trace (snd paidCreate))
  /\ List.filter isCreateAccount (trace (snd paidCreate))
     = [EvCreateAccount taken]
  /\ Code paidFrame = [x00].
Proof.
  assert (Hin : In (EvRun paidFrame None false paidRun)
                   (trace (snd paidCreate))) by (vm_compute; find_in).
  assert (Heq : paidCreate = (fst paidCreate, snd paidCreate))
    by (vm_compute; reflexivity).
  destruct (Create_new_account_state (ext := demoExt) _ _ _ _ _ _ _ _ _ _ _
              _ _ _ Heq Hin)
    as (dIn & _ & _ & _ & _ & _ & _ & _ & _ & Hcreated & _ & _ & _ & _ & _
        & _ & _ & Hcode & _).
  split; [exact Hin|]. split; [exact Hcreated|exact Hcode].
Defined.
